(** * SwapTZ: the timestamp validator and formatter (lib/timestamp)

    A shallow embedding of [validateTimestamp], [isValidTimestamp],
    [formatTimestamp], [getRelativeTime] and [safeFormatTimestamp], together
    with the parts of the JavaScript language and host library they call
    ([parseInt], [Number.isFinite], [Math.round], [Date], [Intl]).

    Conventions.
    - A JavaScript string is the list of its UTF-16 code units.
    - A JavaScript number is [NaN], an infinity, or a finite value given by
      the rational it denotes.  Arithmetic on finite values is exact.  IEEE
      arithmetic gives the same results on the values the module meets when
      the timestamp is an integer of the validated range and the clock reads
      a date after the epoch: integers below 8.64e15 in magnitude, their
      differences, and the roundings of their quotients by the constants of
      the relative-time algorithm.  [+0] and [-0] are identified: the code
      compares and prints numbers, and neither tells them apart.
    - The arguments of the exported functions are JavaScript values, since
      callers do pass [null], [undefined] and strings that are not modes.
    - A thrown failure is a value of [error]; functions that can throw return
      a [result].  [console.warn] and [console.error] append to a log.
    - The host ([Intl], the parsing and printing of dates) is a record of
      functions, [Host]; the clock is the argument [now], the time value that
      [new Date()] would read. *)

From Stdlib Require Import ZArith QArith Qround Qabs List String Ascii Bool.
From Stdlib Require Import Lia Sorted Permutation.
Import ListNotations.
Local Open Scope Z_scope.

(** ** Strings *)

Definition jsstring := list N.

Definition js (s : string) : jsstring :=
  List.map N_of_ascii (list_ascii_of_string s).

Fixpoint jsstring_eqb (a b : jsstring) : bool :=
  match a, b with
  | [], [] => true
  | x :: a', y :: b' => N.eqb x y && jsstring_eqb a' b'
  | _, _ => false
  end.

Fixpoint starts_with (p s : jsstring) : bool :=
  match p, s with
  | [], _ => true
  | x :: p', y :: s' => N.eqb x y && starts_with p' s'
  | _ :: _, [] => false
  end.

(** [String.prototype.includes]. *)
Fixpoint includes (s needle : jsstring) : bool :=
  starts_with needle s ||
  match s with
  | [] => false
  | _ :: s' => includes s' needle
  end.

(** [String.prototype.replace] with a string pattern: the first occurrence
    only. *)
Fixpoint replace (s pat rep : jsstring) : jsstring :=
  if starts_with pat s then rep ++ skipn (List.length pat) s
  else match s with
       | [] => []
       | c :: s' => c :: replace s' pat rep
       end.

(** ** Numbers *)

Inductive number : Type :=
| NaN
| PosInf
| NegInf
| Fin (q : Q).

Definition num_of_Z (z : Z) : number := Fin (inject_Z z).

Definition Qltb (x y : Q) : bool := negb (Qle_bool y x).

(** [a < b]; false as soon as an operand is [NaN]. *)
Definition num_lt (a b : number) : bool :=
  match a, b with
  | NaN, _ | _, NaN => false
  | PosInf, _ => false
  | _, NegInf => false
  | NegInf, _ => true
  | _, PosInf => true
  | Fin x, Fin y => Qltb x y
  end.

Definition num_gt (a b : number) : bool := num_lt b a.

(** [a >= b] *)
Definition num_ge (a b : number) : bool :=
  match a, b with
  | NaN, _ | _, NaN => false
  | PosInf, _ => true
  | _, NegInf => true
  | NegInf, _ => false
  | _, PosInf => false
  | Fin x, Fin y => Qle_bool y x
  end.

Definition num_mul (a b : number) : number :=
  match a, b with
  | Fin x, Fin y => Fin (x * y)
  | NaN, _ | _, NaN => NaN
  | Fin x, PosInf | PosInf, Fin x =>
      if Qltb 0 x then PosInf else if Qltb x 0 then NegInf else NaN
  | Fin x, NegInf | NegInf, Fin x =>
      if Qltb 0 x then NegInf else if Qltb x 0 then PosInf else NaN
  | PosInf, PosInf | NegInf, NegInf => PosInf
  | PosInf, NegInf | NegInf, PosInf => NegInf
  end.

(** The global [isNaN], on a number. *)
Definition isNaN (n : number) : bool :=
  match n with NaN => true | _ => false end.

Definition is_finite (n : number) : bool :=
  match n with Fin _ => true | _ => false end.

(** [Math.round] on a finite value: the nearest integer, a tie going to the
    larger one. *)
Definition Math_round (q : Q) : Z := Qfloor (q + (1 # 2)).

(** Truncation toward zero ([ToIntegerOrInfinity] on a finite value). *)
Definition Qtruncate (q : Q) : Z :=
  if Qle_bool 0 q then Qfloor q else Qceiling q.

(** ** Values *)

(** The values a caller can pass.  [VObject] stands for every value that is
    neither a primitive listed here nor falsy (objects, arrays, functions). *)
Inductive value : Type :=
| VUndefined
| VNull
| VBool (b : bool)
| VNumber (n : number)
| VString (s : jsstring)
| VObject.

(** [ToBoolean]. *)
Definition to_boolean (v : value) : bool :=
  match v with
  | VUndefined | VNull => false
  | VBool b => b
  | VNumber NaN => false
  | VNumber (Fin q) => negb (Qeq_bool q 0)
  | VNumber _ => true
  | VString [] => false
  | VString _ => true
  | VObject => true
  end.

Definition is_string (v : value) : bool :=
  match v with VString _ => true | _ => false end.

(** [Number.isFinite]: no coercion, a non-number is not finite. *)
Definition Number_isFinite (v : value) : bool :=
  match v with VNumber n => is_finite n | _ => false end.

(** A parameter with a default value: the default replaces [undefined]. *)
Definition default_arg (v : value) (d : value) : value :=
  match v with VUndefined => d | _ => v end.

(** Strict equality with a string literal, as a [case] label tests it. *)
Definition is_literal (v : value) (lit : string) : bool :=
  match v with VString s => jsstring_eqb s (js lit) | _ => false end.

(** ** parseInt *)

(** [StrWhiteSpaceChar]: white space and line terminators. *)
Definition is_white_space (c : N) : bool :=
  ((9 <=? c) && (c <=? 13) || (c =? 32) || (c =? 160) || (c =? 5760)
   || (8192 <=? c) && (c <=? 8202) || (c =? 8232) || (c =? 8233)
   || (c =? 8239) || (c =? 8287) || (c =? 12288) || (c =? 65279))%N.

Fixpoint trim_start (s : jsstring) : jsstring :=
  match s with
  | c :: s' => if is_white_space c then trim_start s' else s
  | [] => []
  end.

Definition is_digit (c : N) : bool := ((48 <=? c) && (c <=? 57))%N.

Definition digit_value (c : N) : Z := Z.of_N c - 48.

(** The longest prefix of decimal digits. *)
Fixpoint digit_run (s : jsstring) : jsstring :=
  match s with
  | c :: s' => if is_digit c then c :: digit_run s' else []
  | [] => []
  end.

(** The integer a digit sequence denotes in base 10. *)
Definition digits_value (ds : jsstring) : Z :=
  fold_left (fun acc c => 10 * acc + digit_value c) ds 0.

Definition first_is (c : N) (s : jsstring) : bool :=
  match s with
  | x :: _ => (x =? c)%N
  | [] => false
  end.

(** [parseInt(s, 10)]: skip leading white space, take an optional sign, then
    the longest run of decimal digits; [NaN] when that run is empty.  The
    integer is kept as it is written where an engine would round it to the
    nearest double or to [Infinity]; its comparisons with 0 and
    [MAX_TIMESTAMP], which are doubles, come out the same. *)
Definition parseInt10 (s : jsstring) : number :=
  let str := trim_start s in
  let sign := if first_is 45 str then -1 else 1 in
  let str := if first_is 43 str || first_is 45 str then tl str else str in
  let digits := digit_run str in
  match digits with
  | [] => NaN
  | _ => num_of_Z (sign * digits_value digits)
  end.

(** ** The validator *)

Module TIMESTAMP_CONSTANTS.
Definition MIN_TIMESTAMP : Z := 0.
Definition MAX_TIMESTAMP : Z := 4102444800.
Definition SECONDS_IN_MINUTE : Z := 60.
Definition SECONDS_IN_HOUR : Z := 3600.
Definition SECONDS_IN_DAY : Z := 86400.
Definition SECONDS_IN_WEEK : Z := 604800.
Definition SECONDS_IN_YEAR : Z := 31536000.
End TIMESTAMP_CONSTANTS.

(** The five members of the type [DisplayMode], and the string each one is. *)
Module DisplayMode.
Inductive t : Type := default | date | compact | iso | relative.
Definition literal (m : t) : string :=
  match m with
  | default => "default"
  | date => "date"
  | compact => "compact"
  | iso => "iso"
  | relative => "relative"
  end.
Definition to_value (m : t) : value := VString (js (literal m)).
End DisplayMode.

Definition isValidDisplayMode (mode : jsstring) : bool :=
  existsb (jsstring_eqb mode)
    [js "default"; js "date"; js "compact"; js "iso"; js "relative"].

Definition isValidTimestamp (v : value) : bool :=
  match v with
  | VNumber n => is_finite n && num_ge n (num_of_Z 0)
  | _ => false
  end.

(** [validateTimestamp]; [None] is [null].  The [try] around the body has
    nothing to catch: [parseInt] of a string does not throw. *)
Definition validateTimestamp (timestampStr : value) : option number :=
  if negb (to_boolean timestampStr) || negb (is_string timestampStr) then None
  else
    match timestampStr with
    | VString s =>
        let timestamp := parseInt10 s in
        if isNaN timestamp
           || num_lt timestamp (num_of_Z TIMESTAMP_CONSTANTS.MIN_TIMESTAMP)
           || num_gt timestamp (num_of_Z TIMESTAMP_CONSTANTS.MAX_TIMESTAMP)
        then None
        else Some timestamp
    | _ => None
    end.

(** ** Printing integers *)

Fixpoint decimal_fuel (fuel : nat) (n : Z) : jsstring :=
  match fuel with
  | O => []
  | S fuel' =>
      if n <? 10 then [Z.to_N (48 + n)]
      else decimal_fuel fuel' (n / 10) ++ [Z.to_N (48 + n mod 10)]
  end.

(** The decimal digits of a non-negative integer. *)
Definition decimal (n : Z) : jsstring :=
  decimal_fuel (S (Z.to_nat (Z.log2 n))) n.

(** [Number::toString] on an integer (of magnitude below 10^21, above which
    JavaScript switches to exponent notation). *)
Definition Number_toString (n : Z) : jsstring :=
  if n <? 0 then 45%N :: decimal (- n) else decimal n.

(** ** Failures and results *)

(** What a host function throws: whether it is a [RangeError], and its
    [message]. *)
Record thrown : Type := Throw {
  is_RangeError : bool;
  message : jsstring
}.

(** One constructor for each [throw] of the module, and one for what the
    host throws. *)
Inductive error : Type :=
| InvalidTimestampError
| InvalidTimezoneError
| InvalidDateError
| InvalidRelativeDateError
| HostError (t : thrown).

Definition error_message (e : error) : jsstring :=
  match e with
  | InvalidTimestampError =>
      js "Invalid timestamp: must be a positive finite number"
  | InvalidTimezoneError => js "Invalid timezone: must be a non-empty string"
  | InvalidDateError => js "Invalid timestamp: results in invalid date"
  | InvalidRelativeDateError => js "Invalid date provided to getRelativeTime"
  | HostError t => message t
  end.

(** [error instanceof RangeError]; the module's own failures are plain
    [Error]s. *)
Definition instanceof_RangeError (e : error) : bool :=
  match e with
  | HostError t => is_RangeError t
  | _ => false
  end.

Inductive result (A : Type) : Type :=
| Ok (a : A)
| Err (e : error).
Arguments Ok {A} a.
Arguments Err {A} e.

Inductive console_call : Type :=
| console_warn (msg : jsstring)
| console_error (msg : jsstring) (e : error).

(** What a call leaves behind: the console calls it made, in order, and how
    it completed. *)
Definition outcome (A : Type) : Type := (list console_call * result A)%type.

(** ** The host *)

(** The options the module passes to [Intl.DateTimeFormat]. *)
Record DateTimeFormatOptions : Type := {
  weekday : option string;
  day : option string;
  month : option string;
  year : option string;
  hour : option string;
  minute : option string;
  hour12 : option bool;
  timeZone : jsstring
}.

(** The calendar and time-zone capability of the host.  A [Date] is
    represented by its time value, an integer of milliseconds since the
    epoch; [None] is the invalid date. *)
Record Host : Type := {
  (** [new Intl.DateTimeFormat(locale, options).format(date)] *)
  DateTimeFormat_format :
    string -> DateTimeFormatOptions -> Z -> jsstring + thrown;
  (** [date.toLocaleString(locale, { timeZone })] *)
  Date_toLocaleString : string -> jsstring -> Z -> jsstring + thrown;
  (** [new Date(text)], in the local time zone of the host *)
  Date_parse : jsstring -> option Z;
  (** [date.toISOString()] on a valid date *)
  Date_toISOString : Z -> jsstring
}.

Definition lift_host (r : jsstring + thrown) : result jsstring :=
  match r with
  | inl s => Ok s
  | inr t => Err (HostError t)
  end.

(** [TimeClip], as [new Date(number)] applies it. *)
Definition TimeClip (n : number) : option Z :=
  match n with
  | Fin q =>
      if Qltb (inject_Z 8640000000000000) (Qabs q) then None
      else Some (Qtruncate q)
  | _ => None
  end.

(** [Date.prototype.toISOString]: a [RangeError] on the invalid date. *)
Definition toISOString (h : Host) (date : option Z) : result jsstring :=
  match date with
  | Some t => Ok (Date_toISOString h t)
  | None => Err (HostError (Throw true (js "Invalid time value")))
  end.

(** ** The relative-time algorithm *)

Definition getRelativeTime (date : option Z) (now : Z) : result jsstring :=
  match date with
  | None => Err InvalidRelativeDateError
  | Some time =>
      let diffMs := time - now in
      let diffSec := Math_round (inject_Z diffMs / 1000) in
      let diffMin := Math_round (inject_Z diffSec / 60) in
      let diffHour := Math_round (inject_Z diffMin / 60) in
      let diffDay := Math_round (inject_Z diffHour / 24) in
      if Z.abs diffDay >=? 365 then
        let diffYear := Math_round (inject_Z diffDay / 365) in
        Ok (if diffYear >? 0
            then js "in " ++ Number_toString diffYear ++ js " year"
                 ++ (if diffYear =? 1 then [] else js "s")
            else Number_toString (- diffYear) ++ js " year"
                 ++ (if diffYear =? -1 then [] else js "s") ++ js " ago")
      else if Z.abs diffDay >=? 7 then
        let diffWeek := Math_round (inject_Z diffDay / 7) in
        Ok (if diffWeek >? 0
            then js "in " ++ Number_toString diffWeek ++ js " week"
                 ++ (if diffWeek =? 1 then [] else js "s")
            else Number_toString (- diffWeek) ++ js " week"
                 ++ (if diffWeek =? -1 then [] else js "s") ++ js " ago")
      else if Z.abs diffSec <? 60 then
        Ok (if diffSec >? 0
            then js "in " ++ Number_toString diffSec ++ js " second"
                 ++ (if diffSec =? 1 then [] else js "s")
            else Number_toString (- diffSec) ++ js " second"
                 ++ (if diffSec =? -1 then [] else js "s") ++ js " ago")
      else if Z.abs diffMin <? 60 then
        Ok (if diffMin >? 0
            then js "in " ++ Number_toString diffMin ++ js " minute"
                 ++ (if diffMin =? 1 then [] else js "s")
            else Number_toString (- diffMin) ++ js " minute"
                 ++ (if diffMin =? -1 then [] else js "s") ++ js " ago")
      else if Z.abs diffHour <? 24 then
        Ok (if diffHour >? 0
            then js "in " ++ Number_toString diffHour ++ js " hour"
                 ++ (if diffHour =? 1 then [] else js "s")
            else Number_toString (- diffHour) ++ js " hour"
                 ++ (if diffHour =? -1 then [] else js "s") ++ js " ago")
      else
        Ok (if diffDay >? 0
            then js "in " ++ Number_toString diffDay ++ js " day"
                 ++ (if diffDay =? 1 then [] else js "s")
            else Number_toString (- diffDay) ++ js " day"
                 ++ (if diffDay =? -1 then [] else js "s") ++ js " ago")
  end.

(** ** The formatter *)

Definition bind {A B : Type} (r : result A) (k : A -> result B) : result B :=
  match r with
  | Ok a => k a
  | Err e => Err e
  end.

Notation "x <- r ;; k" := (bind r (fun x => k))
  (at level 61, r at next level, right associativity).

Definition UTC : value := VString (js "UTC").
Definition default_mode : value := VString (js "default").

(** The [try] block of [formatTimestamp], entered once both arguments have
    passed their checks.  [now] is what the clock reads when [getRelativeTime]
    evaluates [new Date()]. *)
Definition formatTimestamp_try (h : Host) (now : Z)
    (timestamp : number) (timezone : jsstring) (mode : value)
  : result jsstring :=
  let date := TimeClip (num_mul timestamp (num_of_Z 1000)) in
  match date with
  | None => Err InvalidDateError
  | Some time =>
      if is_literal mode "date" then
        lift_host (DateTimeFormat_format h "en-GB"
          {| weekday := None; day := Some "numeric"%string;
             month := Some "long"%string; year := Some "numeric"%string;
             hour := None; minute := None; hour12 := None;
             timeZone := timezone |} time)
      else if is_literal mode "compact" then
        text <- lift_host (DateTimeFormat_format h "en-GB"
          {| weekday := None; day := Some "2-digit"%string;
             month := Some "2-digit"%string; year := Some "numeric"%string;
             hour := Some "2-digit"%string; minute := Some "2-digit"%string;
             hour12 := Some false; timeZone := timezone |} time) ;;
        Ok (replace text (js ",") [])
      else if is_literal mode "iso" then
        text <- lift_host (Date_toLocaleString h "en-US" timezone time) ;;
        let tzDate := Date_parse h text in
        iso <- toISOString h tzDate ;;
        Ok (replace iso (js ".000Z") [])
      else if is_literal mode "relative" then
        getRelativeTime date now
      else
        lift_host (DateTimeFormat_format h "en-GB"
          {| weekday := Some "short"%string; day := Some "numeric"%string;
             month := Some "long"%string; year := Some "numeric"%string;
             hour := Some "numeric"%string; minute := Some "numeric"%string;
             hour12 := Some true; timeZone := timezone |} time)
  end.

(** The test of the [catch] clause. *)
Definition is_timezone_error (e : error) : bool :=
  instanceof_RangeError e && includes (error_message e) (js "timezone").

(** What the engine throws when the call stack is exhausted. *)
Definition stack_overflow : error :=
  HostError (Throw true (js "Maximum call stack size exceeded")).

Definition fallback_warning (timezone : jsstring) : console_call :=
  console_warn (js "Invalid timezone " ++ [34%N] ++ timezone ++ [34%N]
                ++ js ", falling back to UTC").

(** [formatTimestamp].  The retry in the [catch] clause is a recursive call;
    [depth] is the number of nested calls the stack still has room for. *)
Fixpoint formatTimestamp (h : Host) (now : Z) (depth : nat)
    (timestamp timezone mode : value) {struct depth} : outcome jsstring :=
  let timezone := default_arg timezone UTC in
  let mode := default_arg mode default_mode in
  match timestamp with
  | VNumber t =>
      if negb (is_finite t) || num_lt t (num_of_Z 0)
      then ([], Err InvalidTimestampError)
      else if negb (to_boolean timezone) || negb (is_string timezone)
      then ([], Err InvalidTimezoneError)
      else
        match timezone with
        | VString tz =>
            match formatTimestamp_try h now t tz mode with
            | Ok text => ([], Ok text)
            | Err error =>
                if is_timezone_error error then
                  match depth with
                  | O => ([fallback_warning tz], Err stack_overflow)
                  | S depth' =>
                      let (log, r) :=
                        formatTimestamp h now depth' timestamp UTC mode in
                      (fallback_warning tz :: log, r)
                  end
                else ([], Err error)
            end
        | _ => ([], Err InvalidTimezoneError)
        end
  | _ => ([], Err InvalidTimestampError)
  end.

(** [getCurrentTimestamp], [now] being [Date.now()]. *)
Definition getCurrentTimestamp (now : Z) : Z := Qfloor (inject_Z now / 1000).

Module TimestampConversion.
Record t : Type := {
  timestamp : value;
  formattedDate : jsstring;
  timezone : value;
  mode : value
}.
End TimestampConversion.

Definition convertTimestamp (h : Host) (now : Z) (depth : nat)
    (timestamp timezone mode : value) : outcome TimestampConversion.t :=
  let timezone := default_arg timezone UTC in
  let mode := default_arg mode default_mode in
  let (log, r) := formatTimestamp h now depth timestamp timezone mode in
  (log, formattedDate <- r ;;
        Ok {| TimestampConversion.timestamp := timestamp;
              TimestampConversion.formattedDate := formattedDate;
              TimestampConversion.timezone := timezone;
              TimestampConversion.mode := mode |}).

(** [safeFormatTimestamp]: the console calls made, and the value returned. *)
Definition safeFormatTimestamp (h : Host) (now : Z) (depth : nat)
    (timestamp timezone mode fallback : value) : list console_call * value :=
  let timezone := default_arg timezone UTC in
  let mode := default_arg mode default_mode in
  let fallback := default_arg fallback (VString (js "Invalid timestamp")) in
  match formatTimestamp h now depth timestamp timezone mode with
  | (log, Ok text) => (log, VString text)
  | (log, Err error) =>
      (log ++ [console_error (js "Error formatting timestamp:") error],
       fallback)
  end.

(** ** A reference host

    A small host to evaluate the module on: the proleptic Gregorian calendar,
    two time zones at a fixed offset, the [en-GB] and [en-US] renderings the
    module asks for, and the message V8 gives an unknown time zone. *)

Definition civil_from_days (days : Z) : Z * Z * Z :=
  let z := days + 719468 in
  let era := z / 146097 in
  let doe := z - era * 146097 in
  let yoe := (doe - doe / 1460 + doe / 36524 - doe / 146096) / 365 in
  let doy := doe - (365 * yoe + yoe / 4 - yoe / 100) in
  let mp := (5 * doy + 2) / 153 in
  let d := doy - (153 * mp + 2) / 5 + 1 in
  let m := if mp <? 10 then mp + 3 else mp - 9 in
  let y := yoe + era * 400 + (if m <=? 2 then 1 else 0) in
  (y, m, d).

Definition days_from_civil (y m d : Z) : Z :=
  let y := if m <=? 2 then y - 1 else y in
  let era := y / 400 in
  let yoe := y - era * 400 in
  let doy := (153 * (if 2 <? m then m - 3 else m + 9) + 2) / 5 + d - 1 in
  let doe := yoe * 365 + yoe / 4 - yoe / 100 + doy in
  era * 146097 + doe - 719468.

Definition pad (width : nat) (n : Z) : jsstring :=
  let d := decimal n in
  repeat 48%N (width - List.length d) ++ d.

Definition month_name (m : Z) : jsstring :=
  nth (Z.to_nat (m - 1))
    [js "January"; js "February"; js "March"; js "April"; js "May";
     js "June"; js "July"; js "August"; js "September"; js "October";
     js "November"; js "December"] [].

Definition weekday_name (days : Z) : jsstring :=
  nth (Z.to_nat ((days + 4) mod 7))
    [js "Sun"; js "Mon"; js "Tue"; js "Wed"; js "Thu"; js "Fri"; js "Sat"] [].

(** The offset from UTC, in milliseconds, of the zones the reference host
    knows (Sydney at its standard time). *)
Definition zone_offset (timezone : jsstring) : option Z :=
  if jsstring_eqb timezone (js "UTC") then Some 0
  else if jsstring_eqb timezone (js "Australia/Sydney") then Some 36000000
  else None.

Definition invalid_time_zone (timezone : jsstring) : thrown :=
  Throw true (js "Invalid time zone specified: " ++ timezone).

Definition reference_format (locale : string) (o : DateTimeFormatOptions)
    (time : Z) : jsstring + thrown :=
  match zone_offset (timeZone o) with
  | None => inr (invalid_time_zone (timeZone o))
  | Some offset =>
      let wall := time + offset in
      let days := wall / 86400000 in
      let '(y, m, d) := civil_from_days days in
      let hh := wall mod 86400000 / 3600000 in
      let mm := wall mod 3600000 / 60000 in
      match weekday o, hour o with
      | Some _, _ =>
          inl (weekday_name days ++ js ", " ++ decimal d ++ js " "
               ++ month_name m ++ js " " ++ decimal y ++ js " at "
               ++ decimal (if hh mod 12 =? 0 then 12 else hh mod 12)
               ++ js ":" ++ pad 2 mm
               ++ (if hh <? 12 then js " am" else js " pm"))
      | None, Some _ =>
          inl (pad 2 d ++ js "/" ++ pad 2 m ++ js "/" ++ decimal y
               ++ js ", " ++ pad 2 hh ++ js ":" ++ pad 2 mm)
      | None, None =>
          inl (decimal d ++ js " " ++ month_name m ++ js " " ++ decimal y)
      end
  end.

Definition reference_toLocaleString (locale : string) (timezone : jsstring)
    (time : Z) : jsstring + thrown :=
  match zone_offset timezone with
  | None => inr (invalid_time_zone timezone)
  | Some offset =>
      let wall := time + offset in
      let '(y, m, d) := civil_from_days (wall / 86400000) in
      let hh := wall mod 86400000 / 3600000 in
      let mm := wall mod 3600000 / 60000 in
      let ss := wall mod 60000 / 1000 in
      inl (decimal m ++ js "/" ++ decimal d ++ js "/" ++ decimal y
           ++ js ", " ++ decimal (if hh mod 12 =? 0 then 12 else hh mod 12)
           ++ js ":" ++ pad 2 mm ++ js ":" ++ pad 2 ss
           ++ (if hh <? 12 then js " AM" else js " PM"))
  end.

(** The numbers written in a text, in order. *)
Fixpoint numbers_in (s : jsstring) (current : option Z) : list Z :=
  match s with
  | [] => match current with Some n => [n] | None => [] end
  | c :: s' =>
      if is_digit c then
        numbers_in s'
          (Some (10 * match current with Some n => n | None => 0 end
                 + digit_value c))
      else
        match current with
        | Some n => n :: numbers_in s' None
        | None => numbers_in s' None
        end
  end.

(** [new Date(text)] on a text shaped as [M/D/YYYY, h:mm:ss AM]: the fields
    are read as a wall-clock time in the local zone of the host. *)
Definition reference_parse (local_offset : Z) (text : jsstring) : option Z :=
  match numbers_in text None with
  | [m; d; y; h12; mm; ss] =>
      let hh := h12 mod 12 + (if includes text (js "PM") then 12 else 0) in
      Some (days_from_civil y m d * 86400000
            + hh * 3600000 + mm * 60000 + ss * 1000 - local_offset)
  | _ => None
  end.

Definition reference_toISOString (time : Z) : jsstring :=
  let '(y, m, d) := civil_from_days (time / 86400000) in
  (if (0 <=? y) && (y <=? 9999) then pad 4 y
   else (if y <? 0 then 45%N else 43%N) :: pad 6 (Z.abs y))
  ++ js "-" ++ pad 2 m ++ js "-" ++ pad 2 d ++ js "T"
  ++ pad 2 (time mod 86400000 / 3600000) ++ js ":"
  ++ pad 2 (time mod 3600000 / 60000) ++ js ":"
  ++ pad 2 (time mod 60000 / 1000) ++ js "."
  ++ pad 3 (time mod 1000) ++ js "Z".

(** The reference host, in a place whose local time is [local_offset]
    milliseconds ahead of UTC. *)
Definition reference_host (local_offset : Z) : Host :=
  {| DateTimeFormat_format := reference_format;
     Date_toLocaleString := reference_toLocaleString;
     Date_parse := reference_parse local_offset;
     Date_toISOString := reference_toISOString |}.

(** The timestamp of the documentation: 17 May 2025, 19:36:40 UTC. *)
Definition sample_timestamp : value := VNumber (num_of_Z 1747510600).

Definition Sydney : value := VString (js "Australia/Sydney").

(** ** The specification's vocabulary *)

(** "[s] parses to [n]": [s] opens with an optional sign and a non-empty run
    of decimal digits that stops at the first code unit that is not a digit,
    and [n] is the integer so written, in base 10. *)
Definition spec_parses_to (s : jsstring) (n : Z) : Prop :=
  exists (sign : Z) (digits rest : jsstring),
    (s = digits ++ rest /\ sign = 1
     \/ s = 43%N :: digits ++ rest /\ sign = 1
     \/ s = 45%N :: digits ++ rest /\ sign = -1)
    /\ digits <> []
    /\ forallb is_digit digits = true
    /\ match rest with [] => True | c :: _ => is_digit c = false end
    /\ n = sign * digits_value digits.

(** [round(a / b)] for a positive [b], in integer arithmetic: the nearest
    integer, a tie going up. *)
Definition spec_round (a b : Z) : Z := (2 * a + b) / (2 * b).

Inductive time_unit : Type := Year | Week | Second | Minute | Hour | Day.

Definition unit_name (u : time_unit) : jsstring :=
  match u with
  | Year => js "year"
  | Week => js "week"
  | Second => js "second"
  | Minute => js "minute"
  | Hour => js "hour"
  | Day => js "day"
  end.

(** The chain of roundings and the choice of a bucket, as the specification
    words them: the unit, and the signed magnitude in that unit. *)
Definition spec_bucket (diffMs : Z) : time_unit * Z :=
  let diffSec := spec_round diffMs 1000 in
  let diffMin := spec_round diffSec 60 in
  let diffHour := spec_round diffMin 60 in
  let diffDay := spec_round diffHour 24 in
  if 365 <=? Z.abs diffDay then (Year, spec_round diffDay 365)
  else if 7 <=? Z.abs diffDay then (Week, spec_round diffDay 7)
  else if Z.abs diffSec <? 60 then (Second, diffSec)
  else if Z.abs diffMin <? 60 then (Minute, diffMin)
  else if Z.abs diffHour <? 24 then (Hour, diffHour)
  else (Day, diffDay).

(** The phrase for a magnitude [n] in a unit, as the specification words it:
    "in n unit(s)" for a positive [n], "|n| unit(s) ago" otherwise, the unit
    in the singular exactly when [|n| = 1]. *)
Definition spec_phrase (u : time_unit) (n : Z) : jsstring :=
  let unit := unit_name u ++ (if Z.abs n =? 1 then [] else js "s") in
  if 0 <? n then js "in " ++ decimal n ++ js " " ++ unit
  else decimal (Z.abs n) ++ js " " ++ unit ++ js " ago".

(** A mode that is one of the five members of [DisplayMode]. *)
Definition recognized_mode (mode : value) : bool :=
  match mode with
  | VString s => isValidDisplayMode s
  | _ => false
  end.

(** ** The rest of the timestamp module *)

(** A console call of any kind: the method, the text, and the value passed
    after it, if any. *)
Inductive console_level : Type := level_warn | level_error.

Record console_entry : Type := Console {
  level : console_level;
  text : jsstring;
  argument : option error
}.

Definition console_entry_of (c : console_call) : console_entry :=
  match c with
  | console_warn msg => Console level_warn msg None
  | console_error msg e => Console level_error msg (Some e)
  end.

(** What [getBrowserTimezone] finds in the host: no [Intl.DateTimeFormat],
    a failure while asking for the resolved options, or the value of their
    [timeZone]. *)
Inductive DateTimeFormat_env : Type :=
| DateTimeFormat_missing
| DateTimeFormat_throws (t : thrown)
| DateTimeFormat_timeZone (tz : value).

Definition getBrowserTimezone (env : DateTimeFormat_env)
  : list console_entry * jsstring :=
  match env with
  | DateTimeFormat_missing =>
      ([Console level_warn
          (js "Intl API not available, falling back to UTC") None],
       js "UTC")
  | DateTimeFormat_timeZone timezone =>
      if negb (to_boolean timezone) || negb (is_string timezone) then
        ([Console level_warn
            (js "Invalid timezone detected, falling back to UTC") None],
         js "UTC")
      else
        match timezone with
        | VString tz => ([], tz)
        | _ => ([], js "UTC")
        end
  | DateTimeFormat_throws t =>
      ([Console level_warn
          (js "Failed to get browser timezone, falling back to UTC:")
          (Some (HostError t))],
       js "UTC")
  end.

(** ** The timezones module *)

Module TimezoneOption.
Record t : Type := { name : jsstring; value : jsstring }.
End TimezoneOption.

Module TimezoneGroup.
Record t : Type := { label : jsstring; timezones : list TimezoneOption.t }.
End TimezoneGroup.

Definition isValidTimezone (timezone : value) : bool :=
  match timezone with
  | VString s =>
      if (List.length s =? 0)%nat then false
      else includes s (js "/") && (3 <? List.length s)%nat
  | _ => false
  end.

Definition option_of (name value : string) : TimezoneOption.t :=
  {| TimezoneOption.name := js name; TimezoneOption.value := js value |}.

Definition commonTimezones : list TimezoneGroup.t :=
  [ {| TimezoneGroup.label := js "Australia";
       TimezoneGroup.timezones :=
         [ option_of "Sydney" "Australia/Sydney";
           option_of "Melbourne" "Australia/Melbourne";
           option_of "Brisbane" "Australia/Brisbane";
           option_of "Perth" "Australia/Perth";
           option_of "Adelaide" "Australia/Adelaide";
           option_of "Darwin" "Australia/Darwin" ] |};
    {| TimezoneGroup.label := js "New Zealand";
       TimezoneGroup.timezones :=
         [ option_of "Auckland/Wellington" "Pacific/Auckland" ] |};
    {| TimezoneGroup.label := js "United Kingdom";
       TimezoneGroup.timezones := [ option_of "London" "Europe/London" ] |};
    {| TimezoneGroup.label := js "United States";
       TimezoneGroup.timezones :=
         [ option_of "Eastern Time (New York)" "America/New_York";
           option_of "Central Time (Chicago)" "America/Chicago";
           option_of "Mountain Time (Denver)" "America/Denver";
           option_of "Pacific Time (Los Angeles)" "America/Los_Angeles" ] |}
  ].

Definition FALLBACK_TIMEZONES : list jsstring :=
  [ js "UTC"; js "America/New_York"; js "America/Chicago";
    js "America/Denver"; js "America/Los_Angeles"; js "Europe/London";
    js "Europe/Paris"; js "Europe/Berlin"; js "Asia/Tokyo";
    js "Asia/Shanghai"; js "Australia/Sydney"; js "Australia/Melbourne";
    js "Pacific/Auckland" ].

Definition CACHE_TTL : Z := 5 * 60 * 1000.

(** [String.prototype.split] with a separator of one code unit: the pieces
    between its occurrences, at least one piece. *)
Fixpoint split (sep : N) (s : jsstring) : list jsstring :=
  match s with
  | [] => [[]]
  | c :: s' =>
      if (c =? sep)%N then [] :: split sep s'
      else
        match split sep s' with
        | piece :: pieces => (c :: piece) :: pieces
        | [] => [[c]]
        end
  end.

(** [text.replace(/_/g, ' ')]. *)
Definition underscores_to_spaces (text : jsstring) : jsstring :=
  List.map (fun c => if (c =? 95)%N then 32%N else c) text.

Definition formatTimezoneName (timezone : jsstring) : jsstring :=
  match timezone with
  | [] => js "Unknown"
  | _ =>
      let parts := split 47 timezone in
      if (List.length parts <? 2)%nat then timezone
      else
        let city := nth (List.length parts - 1) parts [] in
        underscores_to_spaces city
  end.

Fixpoint findTimezoneByValue_loop (timezoneGroups : list TimezoneGroup.t)
    (value : jsstring) : option TimezoneOption.t :=
  match timezoneGroups with
  | [] => None
  | group :: rest =>
      match find (fun tz => jsstring_eqb (TimezoneOption.value tz) value)
                 (TimezoneGroup.timezones group) with
      | Some found => Some found
      | None => findTimezoneByValue_loop rest value
      end
  end.

(** [findTimezoneByValue]; [None] is [null]. *)
Definition findTimezoneByValue (timezoneGroups : list TimezoneGroup.t)
    (value : jsstring) : option TimezoneOption.t :=
  if negb (isValidTimezone (VString value)) then None
  else findTimezoneByValue_loop timezoneGroups value.

(** [getTimezonesByRegion].  [toLowerCase] is the lower-casing of the
    host. *)
Definition getTimezonesByRegion (toLowerCase : jsstring -> jsstring)
    (timezoneGroups : list TimezoneGroup.t) (region : jsstring)
  : list TimezoneOption.t :=
  let group :=
    find (fun g => includes (toLowerCase (TimezoneGroup.label g))
                            (toLowerCase region))
         timezoneGroups in
  match group with
  | Some g => TimezoneGroup.timezones g
  | None => []
  end.

(** The inner loop of [searchTimezones]: the options of one group that
    match, pushed after [results]. *)
Fixpoint searchTimezones_group (toLowerCase : jsstring -> jsstring)
    (searchTerm : jsstring) (timezones : list TimezoneOption.t)
    (results : list TimezoneOption.t) : list TimezoneOption.t :=
  match timezones with
  | [] => results
  | timezone :: rest =>
      searchTimezones_group toLowerCase searchTerm rest
        (if includes (toLowerCase (TimezoneOption.name timezone)) searchTerm
            || includes (toLowerCase (TimezoneOption.value timezone))
                        searchTerm
         then results ++ [timezone]
         else results)
  end.

Fixpoint searchTimezones_loop (toLowerCase : jsstring -> jsstring)
    (searchTerm : jsstring) (timezoneGroups : list TimezoneGroup.t)
    (results : list TimezoneOption.t) : list TimezoneOption.t :=
  match timezoneGroups with
  | [] => results
  | group :: rest =>
      searchTimezones_loop toLowerCase searchTerm rest
        (searchTimezones_group toLowerCase searchTerm
           (TimezoneGroup.timezones group) results)
  end.

Definition searchTimezones (toLowerCase : jsstring -> jsstring)
    (timezoneGroups : list TimezoneGroup.t) (query : value)
  : list TimezoneOption.t :=
  if negb (to_boolean query) || negb (is_string query) then []
  else
    match query with
    | VString q =>
        let searchTerm := toLowerCase q in
        searchTimezones_loop toLowerCase searchTerm timezoneGroups []
    | _ => []
    end.

Module TimezoneStats.
Record t : Type := {
  totalGroups : nat;
  totalTimezones : nat;
  regions : list jsstring
}.
End TimezoneStats.

Definition getTimezoneStats (timezoneGroups : list TimezoneGroup.t)
  : TimezoneStats.t :=
  let regions := List.map TimezoneGroup.label timezoneGroups in
  let totalTimezones :=
    fold_left
      (fun sum group =>
         (sum + List.length (TimezoneGroup.timezones group))%nat)
      timezoneGroups 0%nat in
  {| TimezoneStats.totalGroups := List.length timezoneGroups;
     TimezoneStats.totalTimezones := totalTimezones;
     TimezoneStats.regions := regions |}.

(** The lower-casing of the basic Latin letters, which is what
    [toLowerCase] does to a text of ASCII characters. *)
Definition reference_toLowerCase (s : jsstring) : jsstring :=
  List.map (fun c => if (65 <=? c)%N && (c <=? 90)%N then (c + 32)%N else c)
           s.

(** *** The cache and the clock *)

Module TimezoneCache.
Record t : Type := {
  allTimezones : option (list jsstring);
  timezoneGroups : option (list TimezoneGroup.t);
  lastUpdated : Z
}.
Definition empty : t :=
  {| allTimezones := None; timezoneGroups := None; lastUpdated := 0 |}.
End TimezoneCache.

(** What the functions of the module read and write: the cache, the console,
    and how many times the clock has been read.  The clock itself is a
    function [clock]: its [k]-th reading is [clock k]. *)
Record World : Type := {
  timezoneCache : TimezoneCache.t;
  clock_reads : nat;
  console : list console_entry
}.

Definition State (A : Type) : Type := World -> A * World.

Definition ret {A : Type} (a : A) : State A := fun w => (a, w).

Definition sbind {A B : Type} (m : State A) (k : A -> State B) : State B :=
  fun w => let (a, w') := m w in k a w'.

Notation "x <~ m ;; k" := (sbind m (fun x => k))
  (at level 61, m at next level, right associativity).
Notation "m ;;; k" := (sbind m (fun _ => k))
  (at level 61, right associativity).

(** [Date.now()] *)
Definition Date_now (clock : nat -> Z) : State Z :=
  fun w => (clock (clock_reads w),
            {| timezoneCache := timezoneCache w;
               clock_reads := S (clock_reads w);
               console := console w |}).

Definition get_cache : State TimezoneCache.t :=
  fun w => (timezoneCache w, w).

Definition set_cache (c : TimezoneCache.t) : State unit :=
  fun w => (tt, {| timezoneCache := c;
                   clock_reads := clock_reads w;
                   console := console w |}).

Definition log (entry : console_entry) : State unit :=
  fun w => (tt, {| timezoneCache := timezoneCache w;
                   clock_reads := clock_reads w;
                   console := console w ++ [entry] |}).

(** [timezoneCache.allTimezones = value] *)
Definition set_allTimezones (value : list jsstring) : State unit :=
  c <~ get_cache ;;
  set_cache {| TimezoneCache.allTimezones := Some value;
               TimezoneCache.timezoneGroups := TimezoneCache.timezoneGroups c;
               TimezoneCache.lastUpdated := TimezoneCache.lastUpdated c |}.

(** [timezoneCache.timezoneGroups = value] *)
Definition set_timezoneGroups (value : list TimezoneGroup.t) : State unit :=
  c <~ get_cache ;;
  set_cache {| TimezoneCache.allTimezones := TimezoneCache.allTimezones c;
               TimezoneCache.timezoneGroups := Some value;
               TimezoneCache.lastUpdated := TimezoneCache.lastUpdated c |}.

(** [timezoneCache.lastUpdated = Date.now()] *)
Definition touch_lastUpdated (clock : nat -> Z) : State unit :=
  now <~ Date_now clock ;;
  c <~ get_cache ;;
  set_cache {| TimezoneCache.allTimezones := TimezoneCache.allTimezones c;
               TimezoneCache.timezoneGroups := TimezoneCache.timezoneGroups c;
               TimezoneCache.lastUpdated := now |}.

Definition isCacheValid (clock : nat -> Z) : State bool :=
  now <~ Date_now clock ;;
  c <~ get_cache ;;
  ret (now - TimezoneCache.lastUpdated c <? CACHE_TTL).

Definition clearTimezoneCache : State unit :=
  set_cache TimezoneCache.empty.

(** *** The list of all time zones *)

(** What [Intl.supportedValuesOf('timeZone')] does in the host: it is
    missing, it throws, or it returns something, an array or not. *)
Inductive supportedValuesOf_result : Type :=
| NotAnArray
| AnArray (items : list value).

Inductive supportedValuesOf_env : Type :=
| supportedValuesOf_missing
| supportedValuesOf_throws (t : thrown)
| supportedValuesOf_returns (r : supportedValuesOf_result).

(** The order of the default [sort]: code unit by code unit. *)
Fixpoint jsstring_leb (a b : jsstring) : bool :=
  match a, b with
  | [], _ => true
  | _ :: _, [] => false
  | x :: a', y :: b' =>
      if (x <? y)%N then true
      else if (y <? x)%N then false
      else jsstring_leb a' b'
  end.

Fixpoint sort_insert (x : jsstring) (l : list jsstring) : list jsstring :=
  match l with
  | [] => [x]
  | y :: l' => if jsstring_leb x y then x :: l else y :: sort_insert x l'
  end.

(** [Array.prototype.sort] without a comparator, on an array of strings. *)
Fixpoint Array_sort (l : list jsstring) : list jsstring :=
  match l with
  | [] => []
  | x :: l' => sort_insert x (Array_sort l')
  end.

(** The filter of [getAllTimezones]: the strings that are not empty and
    contain a slash. *)
Fixpoint valid_timezone_strings (items : list value) : list jsstring :=
  match items with
  | [] => []
  | VString tz :: rest =>
      if (0 <? List.length tz)%nat && includes tz (js "/")
      then tz :: valid_timezone_strings rest
      else valid_timezone_strings rest
  | _ :: rest => valid_timezone_strings rest
  end.

(** The four places where [getAllTimezones] gives up on the host: warn,
    copy [FALLBACK_TIMEZONES], cache the copy, and return it. *)
Definition use_fallback (clock : nat -> Z) (warning : console_entry)
  : State (list jsstring) :=
  log warning ;;;
  let fallback := FALLBACK_TIMEZONES in
  set_allTimezones fallback ;;;
  touch_lastUpdated clock ;;;
  ret fallback.

(** The [try] block of [getAllTimezones] and its [catch] clause. *)
Definition getAllTimezones_fresh (clock : nat -> Z)
    (intl : supportedValuesOf_env) : State (list jsstring) :=
  match intl with
  | supportedValuesOf_missing =>
      use_fallback clock
        (Console level_warn
           (js "Intl.supportedValuesOf not available, using fallback timezones")
           None)
  | supportedValuesOf_throws t =>
      use_fallback clock
        (Console level_warn
           (js "Error getting timezones from Intl API, using fallback:")
           (Some (HostError t)))
  | supportedValuesOf_returns NotAnArray
  | supportedValuesOf_returns (AnArray []) =>
      use_fallback clock
        (Console level_warn
           (js "Intl.supportedValuesOf returned invalid data, using fallback timezones")
           None)
  | supportedValuesOf_returns (AnArray timezones) =>
      let validTimezones := valid_timezone_strings timezones in
      match validTimezones with
      | [] =>
          use_fallback clock
            (Console level_warn
               (js "No valid timezones found, using fallback timezones")
               None)
      | _ =>
          let sortedTimezones := Array_sort validTimezones in
          set_allTimezones sortedTimezones ;;;
          touch_lastUpdated clock ;;;
          ret sortedTimezones
      end
  end.

Definition getAllTimezones (clock : nat -> Z) (intl : supportedValuesOf_env)
  : State (list jsstring) :=
  c <~ get_cache ;;
  match TimezoneCache.allTimezones c with
  | Some cached =>
      valid <~ isCacheValid clock ;;
      if valid then ret cached else getAllTimezones_fresh clock intl
  | None => getAllTimezones_fresh clock intl
  end.

(** *** The groups *)

Definition commonTimezoneValues : list jsstring :=
  List.map TimezoneOption.value
    (flat_map TimezoneGroup.timezones commonTimezones).

(** [commonTimezoneValues.has(tz)] *)
Definition has (values : list jsstring) (tz : jsstring) : bool :=
  existsb (jsstring_eqb tz) values.

(** The [try] block of [getTimezoneGroups].  Nothing in it throws, so its
    [catch] clause is left out. *)
Definition getTimezoneGroups_fresh (clock : nat -> Z)
    (intl : supportedValuesOf_env) : State (list TimezoneGroup.t) :=
  allTimezones <~ getAllTimezones clock intl ;;
  let otherTimezones :=
    List.map
      (fun tz => {| TimezoneOption.name := formatTimezoneName tz;
                    TimezoneOption.value := tz |})
      (filter (fun tz => negb (has commonTimezoneValues tz)) allTimezones) in
  let result :=
    commonTimezones
    ++ [ {| TimezoneGroup.label := js "All Other Timezones";
            TimezoneGroup.timezones := otherTimezones |} ] in
  set_timezoneGroups result ;;;
  touch_lastUpdated clock ;;;
  ret result.

Definition getTimezoneGroups (clock : nat -> Z) (intl : supportedValuesOf_env)
  : State (list TimezoneGroup.t) :=
  c <~ get_cache ;;
  match TimezoneCache.timezoneGroups c with
  | Some cached =>
      valid <~ isCacheValid clock ;;
      if valid then ret cached else getTimezoneGroups_fresh clock intl
  | None => getTimezoneGroups_fresh clock intl
  end.

Definition initial_world : World :=
  {| timezoneCache := TimezoneCache.empty;
     clock_reads := 0;
     console := [] |}.

(** ** The page of a timestamp *)

(** The mode the page takes from the query:
    [modeParam && isValidDisplayMode(modeParam) ? modeParam : 'default'],
    [None] being the [null] of a missing parameter. *)
Definition TimestampPage_mode (modeParam : option jsstring) : value :=
  match modeParam with
  | Some m =>
      if to_boolean (VString m) && isValidDisplayMode m then VString m
      else default_mode
  | None => default_mode
  end.

Module PageState.
Record t : Type := {
  selectedTimezone : jsstring;
  formattedDate : jsstring;
  error : jsstring;
  isLoading : bool
}.
Definition initial : t :=
  {| selectedTimezone := []; formattedDate := []; error := [];
     isLoading := true |}.
End PageState.

Definition invalid_timestamp_state (state : PageState.t) : PageState.t :=
  {| PageState.selectedTimezone := PageState.selectedTimezone state;
     PageState.formattedDate := PageState.formattedDate state;
     PageState.error := js "Invalid timestamp provided";
     PageState.isLoading := false |}.

(** The effect of the page: what it logs and the state it leaves, from the
    validated timestamp ([None] is [null]) and the mode. *)
Definition TimestampPage_effect (h : Host) (env : DateTimeFormat_env)
    (now : Z) (depth : nat) (timestamp : option number) (mode : value)
    (state : PageState.t) : list console_entry * PageState.t :=
  match timestamp with
  | None => ([], invalid_timestamp_state state)
  | Some t =>
      if negb (to_boolean (VNumber t)) then ([], invalid_timestamp_state state)
      else
        let (log1, browserTimezone) := getBrowserTimezone env in
        match formatTimestamp h now depth (VNumber t)
                (VString browserTimezone) mode with
        | (log2, Ok formatted) =>
            (log1 ++ List.map console_entry_of log2,
             {| PageState.selectedTimezone := browserTimezone;
                PageState.formattedDate := formatted;
                PageState.error := [];
                PageState.isLoading := false |})
        | (log2, Err err) =>
            (log1 ++ List.map console_entry_of log2
             ++ [Console level_error (js "Error formatting timestamp:")
                   (Some err)],
             {| PageState.selectedTimezone := browserTimezone;
                PageState.formattedDate := PageState.formattedDate state;
                PageState.error :=
                  js "Failed to format timestamp. Please try again.";
                PageState.isLoading := false |})
        end
  end.

(** The page when it loads: the timestamp of the path is validated, the
    mode is taken from the query, and the effect runs on the first state. *)
Definition TimestampPage_load (h : Host) (env : DateTimeFormat_env)
    (now : Z) (depth : nat) (timestampParam : jsstring)
    (modeParam : option jsstring) : list console_entry * PageState.t :=
  TimestampPage_effect h env now depth
    (validateTimestamp (VString timestampParam))
    (TimestampPage_mode modeParam) PageState.initial.

(** A host without time zone data: whatever the zone, formatting throws a
    [RangeError] that speaks of the "timezone". *)
Definition zoneless_host : Host :=
  {| DateTimeFormat_format :=
       fun _ _ _ => inr (Throw true (js "No timezone data"));
     Date_toLocaleString :=
       fun _ _ _ => inr (Throw true (js "No timezone data"));
     Date_parse := fun _ => None;
     Date_toISOString := reference_toISOString |}.

(** The options of all the groups, in the order of the groups. *)
Definition all_options (timezoneGroups : list TimezoneGroup.t)
  : list TimezoneOption.t :=
  flat_map TimezoneGroup.timezones timezoneGroups.

(** The test of [searchTimezones] on one option. *)
Definition matches (toLowerCase : jsstring -> jsstring)
    (searchTerm : jsstring) (timezone : TimezoneOption.t) : bool :=
  includes (toLowerCase (TimezoneOption.name timezone)) searchTerm
  || includes (toLowerCase (TimezoneOption.value timezone)) searchTerm.

(** The list [getAllTimezones] makes out of the host when it does not
    answer from its cache. *)
Definition host_timezones (intl : supportedValuesOf_env) : list jsstring :=
  match intl with
  | supportedValuesOf_returns (AnArray items) =>
      match valid_timezone_strings items with
      | [] => FALLBACK_TIMEZONES
      | valid => Array_sort valid
      end
  | _ => FALLBACK_TIMEZONES
  end.

(** Whether the host gives [getAllTimezones] a list it keeps: an array
    with at least one string that passes the filter. *)
Definition host_list_usable (intl : supportedValuesOf_env) : bool :=
  match intl with
  | supportedValuesOf_returns (AnArray items) =>
      match valid_timezone_strings items with
      | [] => false
      | _ => true
      end
  | _ => false
  end.

(** The groups [getTimezoneGroups] builds from the list of all time
    zones. *)
Definition timezone_groups_of (allTimezones : list jsstring)
  : list TimezoneGroup.t :=
  commonTimezones
  ++ [ {| TimezoneGroup.label := js "All Other Timezones";
          TimezoneGroup.timezones :=
            List.map
              (fun tz => {| TimezoneOption.name := formatTimezoneName tz;
                            TimezoneOption.value := tz |})
              (filter (fun tz => negb (has commonTimezoneValues tz))
                      allTimezones) |} ].

(** A clock that stands at 0 for its first two readings and five minutes
    later from then on. *)
Definition sample_clock (k : nat) : Z :=
  if (k <? 2)%nat then 0 else CACHE_TTL.

(** The cache has no list, or the list has expired at the next reading of
    the clock. *)
Definition list_not_cached (clock : nat -> Z) (w : World) : Prop :=
  match TimezoneCache.allTimezones (timezoneCache w) with
  | Some _ =>
      CACHE_TTL
      <= clock (clock_reads w) - TimezoneCache.lastUpdated (timezoneCache w)
  | None => True
  end.

(** The same, for the groups. *)
Definition groups_not_cached (clock : nat -> Z) (w : World) : Prop :=
  match TimezoneCache.timezoneGroups (timezoneCache w) with
  | Some _ =>
      CACHE_TTL
      <= clock (clock_reads w) - TimezoneCache.lastUpdated (timezoneCache w)
  | None => True
  end.

(** The order of code units, as a relation. *)
Definition code_unit_le (a b : jsstring) : Prop := jsstring_leb a b = true.

(** One more reading of the clock, and nothing else. *)
Definition after_reading (w : World) : World :=
  {| timezoneCache := timezoneCache w;
     clock_reads := S (clock_reads w);
     console := console w |}.

(** * Properties *)

(** ** Strings and digits *)

Lemma jsstring_eqb_eq (a b : jsstring) : jsstring_eqb a b = true <-> a = b.
Proof.
  revert b; induction a as [|x a IH]; intros [|y b]; simpl;
    try (split; [discriminate | discriminate]); try tauto.
  rewrite andb_true_iff, N.eqb_eq, IH.
  split; [intros [-> ->]; reflexivity | intros H; inversion H; auto].
Qed.

Lemma digits_value_snoc (ds : jsstring) (c : N) :
  digits_value (ds ++ [c]) = 10 * digits_value ds + digit_value c.
Proof. unfold digits_value. rewrite fold_left_app. reflexivity. Qed.

Lemma is_digit_bounds (c : N) :
  is_digit c = true <-> 0 <= digit_value c <= 9.
Proof.
  unfold is_digit, digit_value.
  rewrite andb_true_iff, !N.leb_le. lia.
Qed.

Lemma digit_not_white_space (c : N) :
  is_digit c = true -> is_white_space c = false.
Proof.
  unfold is_digit, is_white_space. rewrite andb_true_iff, !N.leb_le.
  intros [H1 H2].
  repeat rewrite orb_false_iff. repeat rewrite andb_false_iff.
  repeat rewrite N.eqb_neq. repeat rewrite N.leb_gt.
  repeat split; try lia.
Qed.

Lemma digit_run_app (ds rest : jsstring) :
  forallb is_digit ds = true ->
  match rest with [] => True | c :: _ => is_digit c = false end ->
  digit_run (ds ++ rest) = ds.
Proof.
  intros Hds Hrest. induction ds as [|d ds IH]; simpl in *.
  - destruct rest as [|c rest]; simpl; [reflexivity | now rewrite Hrest].
  - apply andb_true_iff in Hds as [Hd Hds]. rewrite Hd, IH; auto.
Qed.

Lemma digit_run_split (s : jsstring) :
  exists rest, s = digit_run s ++ rest
    /\ forallb is_digit (digit_run s) = true
    /\ match rest with [] => True | c :: _ => is_digit c = false end.
Proof.
  induction s as [|c s (rest & Hs & Hall & Hrest)]; simpl.
  - exists []. auto.
  - destruct (is_digit c) eqn:Hc.
    + exists rest. simpl. rewrite Hc, Hall. split; [congruence | auto].
    + exists (c :: s). simpl. auto.
Qed.

(** ** Numbers *)

Lemma Qltb_lt (x y : Q) : Qltb x y = true <-> (x < y)%Q.
Proof.
  unfold Qltb. rewrite negb_true_iff, <- not_true_iff_false, Qle_bool_iff.
  split; [apply Qnot_le_lt | apply Qlt_not_le].
Qed.

Lemma Qltb_Z (a b : Z) : Qltb (inject_Z a) (inject_Z b) = (a <? b).
Proof.
  unfold Qltb, Qle_bool. simpl.
  rewrite !Z.mul_1_r. symmetry. apply Z.ltb_antisym.
Qed.

Lemma num_lt_Z (a b : Z) : num_lt (num_of_Z a) (num_of_Z b) = (a <? b).
Proof. apply Qltb_Z. Qed.

Lemma num_of_Z_inj (a b : Z) : num_of_Z a = num_of_Z b -> a = b.
Proof. unfold num_of_Z, inject_Z. congruence. Qed.

(** ** parseInt *)

Lemma first_is_digit (c : N) (d : N) (s : jsstring) :
  is_digit d = true -> is_digit c = false -> first_is c (d :: s) = false.
Proof.
  intros Hd Hc. simpl. apply N.eqb_neq. intros ->. congruence.
Qed.

Lemma trim_start_digits (d : N) (s : jsstring) :
  is_digit d = true -> trim_start (d :: s) = d :: s.
Proof. intros Hd. simpl. now rewrite (digit_not_white_space d Hd). Qed.

(** [parseInt] returns the integer [n] exactly when the text, once its
    leading white space is skipped, parses to [n]. *)
Lemma parseInt10_parses (s : jsstring) (n : Z) :
  parseInt10 s = num_of_Z n <-> spec_parses_to (trim_start s) n.
Proof.
  unfold parseInt10. set (str := trim_start s). split.
  - intros H.
    destruct (digit_run_split
                (if first_is 43 str || first_is 45 str then tl str else str))
      as (rest & Hsplit & Hall & Hrest).
    destruct (digit_run _) as [|d ds] eqn:Hrun; [discriminate|].
    apply num_of_Z_inj in H.
    exists (if first_is 45 str then -1 else 1), (d :: ds), rest.
    repeat split; auto; try discriminate.
    destruct str as [|c str']; simpl in *.
    + left. auto.
    + destruct (N.eqb_spec c 45) as [->|H45]; simpl in *.
      * right; right. rewrite Hsplit. auto.
      * destruct (N.eqb_spec c 43) as [->|H43]; simpl in *.
        -- right; left. rewrite Hsplit. auto.
        -- left. auto.
  - intros (sign & digits & rest & Hshape & Hne & Hall & Hrest & ->).
    destruct digits as [|d ds]; [congruence|].
    assert (Hd : is_digit d = true)
      by (simpl in Hall; apply andb_true_iff in Hall; tauto).
    pose proof (digit_run_app (d :: ds) rest Hall Hrest) as Hrun.
    simpl app in Hrun.
    destruct Hshape as [[-> ->]|[[-> ->]|[-> ->]]].
    + change ((d :: ds) ++ rest) with (d :: ds ++ rest).
      rewrite !(first_is_digit _ d) by (auto; reflexivity). simpl orb. cbv iota.
      rewrite Hrun. reflexivity.
    + simpl first_is. simpl orb. cbv iota. simpl tl.
      rewrite Hrun. reflexivity.
    + simpl first_is. simpl orb. cbv iota. simpl tl.
      rewrite Hrun. reflexivity.
Qed.

Lemma parseInt10_range (s : jsstring) :
  match parseInt10 s with
  | NaN => True
  | Fin q => exists n, q = inject_Z n
  | _ => False
  end.
Proof.
  unfold parseInt10. destruct (digit_run _); simpl; eauto.
Qed.

Lemma spec_parses_to_nonempty (n : Z) : ~ spec_parses_to [] n.
Proof.
  intros (sign & digits & rest & Hshape & Hne & _).
  destruct Hshape as [[H _]|[[H _]|[H _]]]; try discriminate.
  destruct digits; [congruence | discriminate].
Qed.

(** ** The validator *)

Lemma validateTimestamp_some (s : jsstring) (v : number) :
  validateTimestamp (VString s) = Some v <->
  exists n : Z,
    spec_parses_to (trim_start s) n /\ 0 <= n <= 4102444800
    /\ v = num_of_Z n.
Proof.
  unfold validateTimestamp. destruct s as [|c s'].
  - simpl. split; [discriminate|].
    intros (n & Hp & _). now apply spec_parses_to_nonempty in Hp.
  - simpl to_boolean. simpl is_string. simpl orb. cbv iota.
    pose proof (parseInt10_range (c :: s')) as Hr.
    pose proof (parseInt10_parses (c :: s')) as Hp.
    destruct (parseInt10 (c :: s')) as [| | |q] eqn:E; try contradiction.
    + simpl. split; [discriminate|].
      intros (n & Hn & _). apply Hp in Hn. unfold num_of_Z in Hn.
      discriminate.
    + destruct Hr as (n & ->). fold (num_of_Z n) in *.
      unfold num_gt. rewrite ?num_lt_Z, ?Qltb_Z. simpl isNaN. simpl orb.
      unfold TIMESTAMP_CONSTANTS.MIN_TIMESTAMP,
        TIMESTAMP_CONSTANTS.MAX_TIMESTAMP.
      destruct (Z.ltb_spec n 0); destruct (Z.ltb_spec 4102444800 n);
        simpl orb; cbv iota;
        (split;
         [ try discriminate
         | intros (m & Hm & Hrange & ->); apply Hp in Hm;
           apply num_of_Z_inj in Hm; try lia; congruence ]).
      intros [= <-]. exists n. rewrite <- Hp. auto with zarith.
Qed.

(** C1, as amended.  For every string [s], [validateTimestamp s] returns a
    number exactly when [s], once its leading white space is skipped, parses
    (optional sign, then the leading run of decimal digits) to an integer [n]
    with [0 <= n <= 4102444800], and the number is then [n]; in every other
    case it returns [null].  It is a total function: it never throws. *)
Theorem validateTimestamp_range (s : jsstring) :
  (forall v : number,
      validateTimestamp (VString s) = Some v <->
      exists n : Z,
        spec_parses_to (trim_start s) n /\ 0 <= n <= 4102444800
        /\ v = num_of_Z n)
  /\ (validateTimestamp (VString s) = None <->
      ~ exists n : Z,
          spec_parses_to (trim_start s) n /\ 0 <= n <= 4102444800).
Proof.
  split; [apply validateTimestamp_some|].
  destruct (validateTimestamp (VString s)) as [v|] eqn:Hv.
  - split; [discriminate|]. intros Hno. exfalso. apply Hno.
    apply validateTimestamp_some in Hv as (n & Hp & Hr & _). eauto.
  - split; [|reflexivity]. intros _ (n & Hp & Hr).
    assert (H : validateTimestamp (VString s) = Some (num_of_Z n))
      by (apply validateTimestamp_some; eauto).
    congruence.
Qed.

(** C1 as stated fails on a text that opens with white space: [" 5"] has no
    leading run of digits, yet [validateTimestamp] returns 5. *)
Lemma validateTimestamp_leading_space :
  ~ (validateTimestamp (VString (js " 5")) <> None <->
     exists n : Z, spec_parses_to (js " 5") n /\ 0 <= n <= 4102444800).
Proof.
  intros [H _].
  destruct H as (n & (sign & digits & rest & Hshape & Hne & Hall & _) & _).
  - discriminate.
  - destruct Hshape as [[H _]|[[H _]|[H _]]]; try discriminate.
    destruct digits as [|d ds]; [congruence|].
    injection H as <- _. discriminate.
Qed.

Example validateTimestamp_scenario :
  validateTimestamp (VString (js "1747510600")) = Some (num_of_Z 1747510600)
  /\ validateTimestamp (VString (js "-1")) = None
  /\ validateTimestamp (VString (js "4102444801")) = None
  /\ validateTimestamp (VString (js "1.5")) = Some (num_of_Z 1)
  /\ validateTimestamp (VString (js "0")) = Some (num_of_Z 0)
  /\ validateTimestamp (VString (js "4102444800"))
     = Some (num_of_Z 4102444800)
  /\ validateTimestamp (VString (js "invalid")) = None
  /\ validateTimestamp (VString []) = None.
Proof. repeat split; reflexivity. Qed.

(** ** The relative-time algorithm *)

(** [Math.round(a / b)] on integers is the rounding of the specification. *)
Lemma Math_round_div (a : Z) (b : positive) :
  Math_round (inject_Z a / inject_Z (Zpos b)) = spec_round a (Zpos b).
Proof.
  unfold Math_round, spec_round.
  assert (H : (inject_Z a / inject_Z (Zpos b) + (1 # 2)
               == (2 * a + Zpos b) # (2 * b))%Q).
  { unfold Qeq. cbn -[Z.mul Z.add Pos.mul].
    rewrite ?Pos2Z.inj_mul. ring. }
  rewrite (Qfloor_comp _ _ H). reflexivity.
Qed.

Lemma decimal_abs_neg (n : Z) : n <= 0 -> Number_toString (- n) = decimal (Z.abs n).
Proof.
  intros H. unfold Number_toString.
  destruct (Z.ltb_spec (- n) 0); [lia|].
  f_equal. lia.
Qed.

(** Each branch of [getRelativeTime] builds the phrase of the
    specification. *)
Lemma phrase_shape (u : time_unit) (n : Z) :
  (if n >? 0
   then js "in " ++ Number_toString n ++ (32%N :: unit_name u)
        ++ (if n =? 1 then [] else js "s")
   else Number_toString (- n) ++ (32%N :: unit_name u)
        ++ (if n =? -1 then [] else js "s") ++ js " ago")
  = spec_phrase u n.
Proof.
  unfold spec_phrase. rewrite Z.gtb_ltb.
  destruct (Z.ltb_spec 0 n) as [Hpos|Hneg].
  - unfold Number_toString. destruct (Z.ltb_spec n 0); [lia|].
    replace (Z.abs n =? 1) with (n =? 1)
      by (destruct (Z.eqb_spec n 1), (Z.eqb_spec (Z.abs n) 1); lia).
    reflexivity.
  - rewrite decimal_abs_neg by lia.
    replace (Z.abs n =? 1) with (n =? -1)
      by (destruct (Z.eqb_spec n (-1)), (Z.eqb_spec (Z.abs n) 1); lia).
    f_equal. destruct u; destruct (n =? -1); reflexivity.
Qed.

(** [getRelativeTime] computes the bucket and the phrase of the
    specification. *)
Lemma getRelativeTime_refines (date now : Z) :
  getRelativeTime (Some date) now
  = Ok (let '(u, n) := spec_bucket (date - now) in spec_phrase u n).
Proof.
  unfold getRelativeTime, spec_bucket.
  change 1000%Q with (inject_Z 1000). change 60%Q with (inject_Z 60).
  change 24%Q with (inject_Z 24). change 365%Q with (inject_Z 365).
  change 7%Q with (inject_Z 7).
  rewrite !Math_round_div. cbv zeta. rewrite !Z.geb_leb.
  repeat match goal with
         | |- context [if ?c then _ else _] =>
             match c with
             | _ <=? _ => destruct c
             | _ <? _ => destruct c
             end
         end;
    f_equal.
  - exact (phrase_shape Year _).
  - exact (phrase_shape Week _).
  - exact (phrase_shape Second _).
  - exact (phrase_shape Minute _).
  - exact (phrase_shape Hour _).
  - exact (phrase_shape Day _).
Qed.

Lemma spec_round_nearest (a b : Z) :
  0 < b ->
  b * (2 * spec_round a b - 1) <= 2 * a < b * (2 * spec_round a b + 1).
Proof.
  intros Hb. unfold spec_round.
  pose proof (Z.div_mod (2 * a + b) (2 * b) ltac:(lia)).
  pose proof (Z.mod_pos_bound (2 * a + b) (2 * b) ltac:(lia)).
  nia.
Qed.

(** C4.  [getRelativeTime] takes [diffMs = target - now], rounds it to
    seconds, the seconds to minutes, the minutes to hours and the hours to
    days, each from the rounded unit before it, and picks the bucket in the
    order years, weeks, seconds, minutes, hours, days.  A target 7 days ahead
    reads "in 1 week", a target 365 days ahead "in 1 year". *)
Theorem getRelativeTime_buckets (target now : Z) :
  let diffMs := target - now in
  let diffSec := spec_round diffMs 1000 in
  let diffMin := spec_round diffSec 60 in
  let diffHour := spec_round diffMin 60 in
  let diffDay := spec_round diffHour 24 in
  getRelativeTime (Some target) now
  = Ok (if 365 <=? Z.abs diffDay
        then spec_phrase Year (spec_round diffDay 365)
        else if 7 <=? Z.abs diffDay
        then spec_phrase Week (spec_round diffDay 7)
        else if Z.abs diffSec <? 60 then spec_phrase Second diffSec
        else if Z.abs diffMin <? 60 then spec_phrase Minute diffMin
        else if Z.abs diffHour <? 24 then spec_phrase Hour diffHour
        else spec_phrase Day diffDay)
  /\ getRelativeTime (Some (now + 7 * 86400000)) now = Ok (js "in 1 week")
  /\ getRelativeTime (Some (now + 365 * 86400000)) now = Ok (js "in 1 year").
Proof.
  cbv zeta. rewrite !getRelativeTime_refines. unfold spec_bucket.
  split; [|split].
  - repeat match goal with
           | |- context [if ?c then _ else _] => destruct c
           end; reflexivity.
  - replace (now + 7 * 86400000 - now) with 604800000 by lia. reflexivity.
  - replace (now + 365 * 86400000 - now) with 31536000000 by lia. reflexivity.
Qed.

(** The roundings compound: 89.5 seconds make 90 seconds, then 2 minutes,
    where rounding the milliseconds to minutes at once would give 1. *)
Example getRelativeTime_compounds :
  getRelativeTime (Some 89500) 0 = Ok (js "in 2 minutes")
  /\ spec_round 89500 60000 = 1.
Proof. split; reflexivity. Qed.

(** C5.  With [n] the magnitude of the chosen bucket, [getRelativeTime]
    answers "in n unit(s)" when [n] is positive and "|n| unit(s) ago"
    otherwise, the unit taking its "s" unless [|n| = 1]; a difference that
    rounds to 0 seconds reads "0 seconds ago". *)
Theorem getRelativeTime_phrase (target now : Z) :
  (let '(u, n) := spec_bucket (target - now) in
   let unit := unit_name u ++ (if Z.abs n =? 1 then [] else js "s") in
   getRelativeTime (Some target) now
   = Ok (if 0 <? n then js "in " ++ decimal n ++ js " " ++ unit
         else decimal (Z.abs n) ++ js " " ++ unit ++ js " ago"))
  /\ (spec_round (target - now) 1000 = 0 ->
      getRelativeTime (Some target) now = Ok (js "0 seconds ago")).
Proof.
  rewrite getRelativeTime_refines. split.
  - destruct (spec_bucket (target - now)) as [u n]. reflexivity.
  - intros H0. unfold spec_bucket. rewrite H0. reflexivity.
Qed.

Lemma getRelativeTime_phrase_witness :
  getRelativeTime (Some 1747510600499) 1747510600000 = Ok (js "0 seconds ago").
Proof.
  apply (proj2 (getRelativeTime_phrase 1747510600499 1747510600000)).
  reflexivity.
Defined.

Example getRelativeTime_plural :
  getRelativeTime (Some 1000) 0 = Ok (js "in 1 second")
  /\ getRelativeTime (Some 2000) 0 = Ok (js "in 2 seconds")
  /\ getRelativeTime (Some 0) 1000 = Ok (js "1 second ago")
  /\ getRelativeTime (Some 0) 2000 = Ok (js "2 seconds ago")
  /\ getRelativeTime (Some 0) 0 = Ok (js "0 seconds ago")
  /\ getRelativeTime (Some 0) 500 = Ok (js "0 seconds ago")
  /\ getRelativeTime (Some 0) 86400000 = Ok (js "1 day ago")
  /\ getRelativeTime (Some 0) 518400000 = Ok (js "6 days ago").
Proof. repeat split; reflexivity. Qed.

(** ** The formatter *)

Section Formatter.

Variable h : Host.

(** One step of [formatTimestamp]. *)
Lemma formatTimestamp_eq (now : Z) (depth : nat) (timestamp timezone mode : value) :
  formatTimestamp h now depth timestamp timezone mode =
  let timezone := default_arg timezone UTC in
  let mode := default_arg mode default_mode in
  match timestamp with
  | VNumber t =>
      if negb (is_finite t) || num_lt t (num_of_Z 0)
      then ([], Err InvalidTimestampError)
      else if negb (to_boolean timezone) || negb (is_string timezone)
      then ([], Err InvalidTimezoneError)
      else
        match timezone with
        | VString tz =>
            match formatTimestamp_try h now t tz mode with
            | Ok text => ([], Ok text)
            | Err error =>
                if is_timezone_error error then
                  match depth with
                  | O => ([fallback_warning tz], Err stack_overflow)
                  | S depth' =>
                      let (log, r) :=
                        formatTimestamp h now depth' timestamp UTC mode in
                      (fallback_warning tz :: log, r)
                  end
                else ([], Err error)
            end
        | _ => ([], Err InvalidTimezoneError)
        end
  | _ => ([], Err InvalidTimestampError)
  end.
Proof. destruct depth; reflexivity. Qed.

Lemma default_arg_idem (v d : value) :
  default_arg (default_arg v d) d = default_arg v d.
Proof. destruct v; try reflexivity. destruct d; reflexivity. Qed.

(** An omitted argument and its default are the same call. *)
Lemma formatTimestamp_defaults (now : Z) (depth : nat)
    (timestamp timezone mode : value) :
  formatTimestamp h now depth timestamp
    (default_arg timezone UTC) (default_arg mode default_mode)
  = formatTimestamp h now depth timestamp timezone mode.
Proof.
  rewrite !formatTimestamp_eq. cbv zeta.
  rewrite !default_arg_idem. reflexivity.
Qed.


(** [isValidDisplayMode] accepts the five members and nothing else. *)
Lemma recognized_mode_members (mode : value) :
  recognized_mode mode = true
  <-> exists m : DisplayMode.t, mode = DisplayMode.to_value m.
Proof.
  split.
  - destruct mode as [| | | |s|]; try discriminate.
    unfold recognized_mode, isValidDisplayMode. intros H.
    apply existsb_exists in H as (lit & Hin & Heq).
    apply jsstring_eqb_eq in Heq. subst lit. simpl in Hin.
    destruct Hin as [<-|[<-|[<-|[<-|[<-|[]]]]]];
      [exists DisplayMode.default | exists DisplayMode.date
      | exists DisplayMode.compact | exists DisplayMode.iso
      | exists DisplayMode.relative]; reflexivity.
  - intros ([] & ->); reflexivity.
Qed.

(** The mode is only consulted through the four [case] labels. *)
Lemma formatTimestamp_try_unrecognized (now : Z) (t : number)
    (tz : jsstring) (mode : value) :
  recognized_mode mode = false ->
  formatTimestamp_try h now t tz mode
  = formatTimestamp_try h now t tz default_mode.
Proof.
  intros Hm. unfold formatTimestamp_try.
  assert (Hlit : is_literal mode "date" = false
                 /\ is_literal mode "compact" = false
                 /\ is_literal mode "iso" = false
                 /\ is_literal mode "relative" = false).
  { destruct mode as [| | | |s|]; simpl; auto.
    simpl in Hm. unfold isValidDisplayMode in Hm. simpl in Hm.
    repeat (apply orb_false_iff in Hm as [? Hm]). auto. }
  destruct Hlit as (-> & -> & -> & ->). reflexivity.
Qed.

(** Outside the [relative] mode the clock is not read. *)
Lemma formatTimestamp_try_clock (now1 now2 : Z) (t : number)
    (tz : jsstring) (mode : value) :
  is_literal mode "relative" = false ->
  formatTimestamp_try h now1 t tz mode = formatTimestamp_try h now2 t tz mode.
Proof.
  intros Hm. unfold formatTimestamp_try. rewrite Hm. reflexivity.
Qed.

(** In mode [relative] nothing is asked of the host, the [catch] clause
    never retries, and the clock is read once. *)
Lemma formatTimestamp_try_relative (now : Z) (t : number) (tz : jsstring)
    (e : error) :
  formatTimestamp_try h now t tz (DisplayMode.to_value DisplayMode.relative)
  = Err e ->
  e = InvalidDateError /\ is_timezone_error e = false.
Proof.
  unfold formatTimestamp_try.
  destruct (TimeClip _) as [time|].
  - change (is_literal (DisplayMode.to_value DisplayMode.relative) "date")
      with false.
    change (is_literal (DisplayMode.to_value DisplayMode.relative) "compact")
      with false.
    change (is_literal (DisplayMode.to_value DisplayMode.relative) "iso")
      with false.
    change (is_literal (DisplayMode.to_value DisplayMode.relative) "relative")
      with true.
    cbv iota. rewrite getRelativeTime_refines. discriminate.
  - intros [= <-]. split; reflexivity.
Qed.

(** Two calls whose [try] blocks agree at every time zone agree. *)
Lemma formatTimestamp_ext (now1 now2 : Z) (depth : nat)
    (timestamp timezone mode1 mode2 : value) :
  (forall t tz,
      formatTimestamp_try h now1 t tz (default_arg mode1 default_mode)
      = formatTimestamp_try h now2 t tz (default_arg mode2 default_mode)) ->
  formatTimestamp h now1 depth timestamp timezone mode1
  = formatTimestamp h now2 depth timestamp timezone mode2.
Proof.
  revert timezone mode1 mode2.
  induction depth as [|depth IH]; intros timezone mode1 mode2 Htry;
    rewrite !formatTimestamp_eq; cbv zeta;
    destruct timestamp as [| | |t| |]; try reflexivity;
    destruct (negb (is_finite t) || num_lt t (num_of_Z 0)); try reflexivity;
    destruct (negb (to_boolean (default_arg timezone UTC)) || _);
    try reflexivity;
    destruct (default_arg timezone UTC) as [| | | |tz|]; try reflexivity;
    rewrite Htry;
    destruct (formatTimestamp_try h now2 t tz _); try reflexivity;
    destruct (is_timezone_error e); try reflexivity.
  rewrite (IH UTC (default_arg mode1 default_mode)
              (default_arg mode2 default_mode)); [reflexivity|].
  intros t' tz'. rewrite !default_arg_idem. apply Htry.
Qed.

Lemma formatTimestamp_clock (now1 now2 : Z) (depth : nat)
    (timestamp timezone mode : value) :
  is_literal (default_arg mode default_mode) "relative" = false ->
  formatTimestamp h now1 depth timestamp timezone mode
  = formatTimestamp h now2 depth timestamp timezone mode.
Proof.
  intros Hm. apply formatTimestamp_ext. intros t tz.
  now apply formatTimestamp_try_clock.
Qed.

(** The [catch] clause: a failure that passes its test is retried with
    "UTC", after a warning. *)
Lemma formatTimestamp_retry (now : Z) (depth : nat) (t : number)
    (tz : jsstring) (mode : value) (e : error) :
  isValidTimestamp (VNumber t) = true -> tz <> [] ->
  formatTimestamp_try h now t tz (default_arg mode default_mode) = Err e ->
  is_timezone_error e = true ->
  formatTimestamp h now (S depth) (VNumber t) (VString tz) mode
  = (fallback_warning tz
       :: fst (formatTimestamp h now depth (VNumber t) UTC mode),
     snd (formatTimestamp h now depth (VNumber t) UTC mode)).
Proof.
  intros Ht Htz Htry He. rewrite formatTimestamp_eq. cbv zeta.
  destruct t as [| | |q]; try discriminate. simpl in Ht.
  unfold num_lt, num_of_Z, Qltb. rewrite Ht.
  destruct tz as [|c tz]; [congruence|]. simpl.
  rewrite Htry, He.
  rewrite <- (formatTimestamp_defaults now depth _ UTC mode).
  simpl (default_arg UTC UTC).
  destruct (formatTimestamp h now depth _ _ _). reflexivity.
Qed.

(** The [catch] clause: every other failure is thrown again as it is. *)
Lemma formatTimestamp_propagates (now : Z) (depth : nat) (t : number)
    (tz : jsstring) (mode : value) (e : error) :
  isValidTimestamp (VNumber t) = true -> tz <> [] ->
  formatTimestamp_try h now t tz (default_arg mode default_mode) = Err e ->
  is_timezone_error e = false ->
  formatTimestamp h now depth (VNumber t) (VString tz) mode = ([], Err e).
Proof.
  intros Ht Htz Htry He. rewrite formatTimestamp_eq. cbv zeta.
  destruct t as [| | |q]; try discriminate. simpl in Ht.
  unfold num_lt, num_of_Z, Qltb. rewrite Ht.
  destruct tz as [|c tz]; [congruence|]. simpl.
  rewrite Htry, He. reflexivity.
Qed.


(** C3, as amended.  [formatTimestamp] throws the invalid-timestamp error
    whenever the timestamp is not a finite number or is negative.  With a
    valid timestamp, it throws the invalid-timezone error whenever the time
    zone is the empty string or is not a string, [undefined] excepted: an
    omitted time zone is replaced by the default "UTC" and the call proceeds
    as with "UTC". *)
Theorem formatTimestamp_preconditions (now : Z) (depth : nat)
    (timestamp timezone mode : value) :
  (Number_isFinite timestamp = false
   \/ (exists t, timestamp = VNumber t /\ num_lt t (num_of_Z 0) = true) ->
   formatTimestamp h now depth timestamp timezone mode
   = ([], Err InvalidTimestampError))
  /\ (isValidTimestamp timestamp = true ->
      timezone <> VUndefined ->
      timezone = VString [] \/ is_string timezone = false ->
      formatTimestamp h now depth timestamp timezone mode
      = ([], Err InvalidTimezoneError))
  /\ formatTimestamp h now depth timestamp VUndefined mode
     = formatTimestamp h now depth timestamp UTC mode.
Proof.
  split; [|split].
  - intros Hbad. rewrite formatTimestamp_eq. cbv zeta.
    destruct timestamp as [| | |t| |]; try reflexivity.
    destruct Hbad as [Hfin|(t' & [= <-] & Hneg)].
    + simpl in Hfin. rewrite Hfin. reflexivity.
    + rewrite Hneg, orb_true_r. reflexivity.
  - intros Hvalid Hdef Hbad. rewrite formatTimestamp_eq. cbv zeta.
    destruct timestamp as [| | |[| | |q]| |]; try discriminate.
    simpl in Hvalid. unfold num_lt, num_of_Z, Qltb. rewrite Hvalid.
    simpl negb. simpl orb. cbv iota.
    destruct timezone as [| | | |tz|]; try reflexivity; try congruence.
    + destruct b; reflexivity.
    + destruct n as [| | |q']; try reflexivity.
      simpl. destruct (Qeq_bool q' 0); reflexivity.
    + destruct Hbad as [[= ->]|Hstr]; [reflexivity | discriminate].
  - rewrite <- (formatTimestamp_defaults now depth timestamp VUndefined mode).
    rewrite <- (formatTimestamp_defaults now depth timestamp UTC mode).
    reflexivity.
Qed.

(** The part of C6 about time.  On a given host, in each of the modes
    [default], [date], [compact] and [iso], [formatTimestamp] does not read
    the clock: two calls with the same arguments made at different times
    complete in the same way, with the same string. *)
Theorem formatTimestamp_clock_free (now1 now2 : Z) (depth : nat)
    (timestamp timezone : value) (m : DisplayMode.t) :
  m <> DisplayMode.relative ->
  formatTimestamp h now1 depth timestamp timezone (DisplayMode.to_value m)
  = formatTimestamp h now2 depth timestamp timezone (DisplayMode.to_value m).
Proof.
  intros Hm. apply formatTimestamp_clock.
  destruct m; try reflexivity. congruence.
Qed.

(** C7.  A mode that is not one of the five members of [DisplayMode] takes
    the [default] branch of the [switch]: the call completes as the same
    call in mode [default] does. *)
Theorem formatTimestamp_unrecognized_mode (now : Z) (depth : nat)
    (timestamp timezone mode : value) :
  (forall m : DisplayMode.t, mode <> DisplayMode.to_value m) ->
  formatTimestamp h now depth timestamp timezone mode
  = formatTimestamp h now depth timestamp timezone
      (DisplayMode.to_value DisplayMode.default).
Proof.
  intros Hmode.
  assert (Hrec : recognized_mode mode = false).
  { destruct (recognized_mode mode) eqn:Hrec; [|reflexivity].
    apply recognized_mode_members in Hrec as (m & Hm).
    now apply Hmode in Hm. }
  apply formatTimestamp_ext. intros t tz.
  destruct mode as [| | | |s|]; try reflexivity;
    now apply formatTimestamp_try_unrecognized.
Qed.

(** C8.  [safeFormatTimestamp] returns the string of [formatTimestamp] when
    that call returns one, and the fallback of the caller whenever it
    throws (the default fallback when none is given); nothing is thrown.
    With timestamp -1 it returns the fallback "Error occurred". *)
Theorem safeFormatTimestamp_absorbs (now : Z) (depth : nat)
    (timestamp timezone mode fallback : value) :
  (forall text,
      snd (formatTimestamp h now depth timestamp timezone mode) = Ok text ->
      snd (safeFormatTimestamp h now depth timestamp timezone mode fallback)
      = VString text)
  /\ (forall e,
      snd (formatTimestamp h now depth timestamp timezone mode) = Err e ->
      snd (safeFormatTimestamp h now depth timestamp timezone mode fallback)
      = default_arg fallback (VString (js "Invalid timestamp")))
  /\ snd (safeFormatTimestamp h now depth (VNumber (num_of_Z (-1))) UTC
            default_mode (VString (js "Error occurred")))
     = VString (js "Error occurred").
Proof.
  unfold safeFormatTimestamp. rewrite formatTimestamp_defaults.
  repeat split.
  - intros text H. destruct (formatTimestamp h now depth _ _ _) as [log r].
    simpl in H. subst r. reflexivity.
  - intros e H. destruct (formatTimestamp h now depth _ _ _) as [log r].
    simpl in H. subst r. reflexivity.
  - rewrite formatTimestamp_eq. reflexivity.
Qed.


End Formatter.

(** ** Printing and the two validity checks *)

Lemma decimal_fuel_S (fuel : nat) (n : Z) :
  decimal_fuel (S fuel) n
  = if n <? 10 then [Z.to_N (48 + n)]
    else decimal_fuel fuel (n / 10) ++ [Z.to_N (48 + n mod 10)].
Proof. reflexivity. Qed.

Lemma decimal_one_digit (d : Z) :
  0 <= d <= 9 ->
  is_digit (Z.to_N (48 + d)) = true /\ digit_value (Z.to_N (48 + d)) = d.
Proof.
  intros Hd. split.
  - apply is_digit_bounds. unfold digit_value. rewrite Z2N.id; lia.
  - unfold digit_value. rewrite Z2N.id; lia.
Qed.

Lemma decimal_fuel_spec (fuel : nat) (n : Z) :
  0 <= n < 2 ^ Z.of_nat (S fuel) ->
  forallb is_digit (decimal_fuel (S fuel) n) = true
  /\ decimal_fuel (S fuel) n <> []
  /\ digits_value (decimal_fuel (S fuel) n) = n.
Proof.
  revert n. induction fuel as [|fuel IH]; intros n Hn;
    rewrite decimal_fuel_S; destruct (Z.ltb_spec n 10) as [Hsmall|Hbig].
  - destruct (decimal_one_digit n ltac:(lia)) as [Hd Hv].
    cbn [forallb]. rewrite Hd. repeat split; [discriminate|].
    unfold digits_value. cbn [fold_left]. lia.
  - change (2 ^ Z.of_nat 1) with 2 in Hn. lia.
  - destruct (decimal_one_digit n ltac:(lia)) as [Hd Hv].
    cbn [forallb]. rewrite Hd. repeat split; [discriminate|].
    unfold digits_value. cbn [fold_left]. lia.
  - assert (Hdiv : 0 <= n / 10 < 2 ^ Z.of_nat (S fuel)).
    { split; [apply Z.div_pos; lia|].
      apply Z.div_lt_upper_bound; [lia|].
      rewrite (Nat2Z.inj_succ (S fuel)), Z.pow_succ_r in Hn by lia. lia. }
    destruct (IH _ Hdiv) as (Hall & Hne & Hval).
    pose proof (Z.mod_pos_bound n 10 ltac:(lia)) as Hmod.
    destruct (decimal_one_digit (n mod 10) ltac:(lia)) as [Hd Hv].
    repeat split.
    + rewrite forallb_app, Hall. cbn [forallb]. rewrite Hd. reflexivity.
    + intros Happ. apply app_eq_nil in Happ as [_ Happ]. discriminate.
    + rewrite digits_value_snoc, Hval, Hv.
      pose proof (Z.div_mod n 10 ltac:(lia)). lia.
Qed.

(** [decimal] writes digits, at least one, and they read back as the
    number. *)
Lemma decimal_spec (n : Z) :
  0 <= n ->
  forallb is_digit (decimal n) = true
  /\ decimal n <> []
  /\ digits_value (decimal n) = n.
Proof.
  intros Hn. unfold decimal. apply decimal_fuel_spec.
  rewrite Nat2Z.inj_succ, Z2Nat.id by apply Z.log2_nonneg.
  destruct (Z.eq_dec n 0) as [->|Hpos]; [simpl; lia|].
  pose proof (Z.log2_spec n ltac:(lia)). lia.
Qed.

Lemma validateTimestamp_parsed (s : jsstring) (n : Z) :
  spec_parses_to (trim_start s) n ->
  validateTimestamp (VString s)
  = if (n <? 0) || (4102444800 <? n) then None else Some (num_of_Z n).
Proof.
  intros Hp. unfold validateTimestamp.
  destruct s as [|c s']; [now apply spec_parses_to_nonempty in Hp|].
  apply parseInt10_parses in Hp.
  simpl to_boolean. simpl is_string. simpl orb. cbv iota.
  rewrite Hp. unfold num_gt, num_lt, num_of_Z, isNaN.
  rewrite !Qltb_Z. reflexivity.
Qed.

Lemma parses_decimal (n : Z) (rest : jsstring) :
  0 <= n ->
  match rest with [] => True | c :: _ => is_digit c = false end ->
  spec_parses_to (trim_start (decimal n ++ rest)) n.
Proof.
  intros Hn Hrest. destruct (decimal_spec n Hn) as (Hall & Hne & Hval).
  destruct (decimal n) as [|d ds] eqn:Hdec; [congruence|].
  assert (Hd : is_digit d = true)
    by (simpl in Hall; apply andb_true_iff in Hall; tauto).
  change ((d :: ds) ++ rest) with (d :: ds ++ rest).
  rewrite trim_start_digits by exact Hd.
  exists 1, (d :: ds), rest. repeat split; auto. lia.
Qed.

(** C9, as amended.  [isValidTimestamp] holds exactly of the finite numbers
    that are not negative; it has no upper bound and holds of every finite
    number above 4102444800.  [validateTimestamp] returns [null] on the
    decimal digits of every integer above 4102444800, whatever follows them
    that is not a digit. *)
Theorem isValidTimestamp_unbounded :
  (forall v : value,
      isValidTimestamp v = true
      <-> exists q : Q, v = VNumber (Fin q) /\ (0 <= q)%Q)
  /\ (forall q : Q,
      (inject_Z 4102444800 < q)%Q -> isValidTimestamp (VNumber (Fin q)) = true)
  /\ (forall (n : Z) (rest : jsstring),
      4102444800 < n ->
      match rest with [] => True | c :: _ => is_digit c = false end ->
      validateTimestamp (VString (decimal n ++ rest)) = None).
Proof.
  split; [|split].
  - intros v. split.
    + destruct v as [| | |[| | |q]| |]; try discriminate.
      simpl. intros H. exists q. split; [reflexivity|].
      now apply Qle_bool_iff.
    + intros (q & -> & Hq). simpl. now apply Qle_bool_iff.
  - intros q Hq. simpl. apply Qle_bool_iff.
    apply Qle_trans with (inject_Z 4102444800); [discriminate|].
    now apply Qlt_le_weak.
  - intros n rest Hn Hrest.
    rewrite (validateTimestamp_parsed _ n) by (apply parses_decimal; [lia|auto]).
    destruct (Z.ltb_spec n 0); [lia|].
    destruct (Z.ltb_spec 4102444800 n); [reflexivity|lia].
Qed.

Lemma isValidTimestamp_unbounded_witness :
  isValidTimestamp (VNumber (num_of_Z 4102444801)) = true
  /\ validateTimestamp (VString (decimal 4102444801 ++ js ".25")) = None.
Proof.
  split.
  - apply (proj1 (proj2 isValidTimestamp_unbounded)). reflexivity.
  - apply (proj2 (proj2 isValidTimestamp_unbounded)); [lia | reflexivity].
Defined.

(** C9 as stated fails on a number with a fraction: 4102444800.5 is finite
    and above 4102444800, and [validateTimestamp] reads its decimal text as
    4102444800, which it returns. *)
Lemma validateTimestamp_fraction_above_max :
  num_gt (Fin (inject_Z 4102444800 + (1 # 2))) (num_of_Z 4102444800) = true
  /\ isValidTimestamp (VNumber (Fin (inject_Z 4102444800 + (1 # 2)))) = true
  /\ validateTimestamp (VString (js "4102444800.5"))
     = Some (num_of_Z 4102444800)
  /\ validateTimestamp (VString (js "4102444800.5")) <> None.
Proof. repeat split; try reflexivity. discriminate. Qed.

Example isValidTimestamp_scenario :
  isValidTimestamp sample_timestamp = true
  /\ isValidTimestamp (VNumber (num_of_Z 0)) = true
  /\ isValidTimestamp (VNumber (num_of_Z (-1))) = false
  /\ isValidTimestamp (VNumber NaN) = false
  /\ isValidTimestamp (VNumber PosInf) = false
  /\ isValidTimestamp (VString (js "1747510600")) = false
  /\ isValidTimestamp VNull = false.
Proof. repeat split; reflexivity. Qed.

(** ** Evaluations on the reference host *)

Example formatTimestamp_modes :
  formatTimestamp (reference_host 0) 0 0 sample_timestamp Sydney default_mode
  = ([], Ok (js "Sun, 18 May 2025 at 5:36 am"))
  /\ formatTimestamp (reference_host 0) 0 0 sample_timestamp Sydney
       (VString (js "date"))
     = ([], Ok (js "18 May 2025"))
  /\ formatTimestamp (reference_host 0) 0 0 sample_timestamp Sydney
       (VString (js "compact"))
     = ([], Ok (js "18/05/2025 05:36"))
  /\ formatTimestamp (reference_host 0) 0 0 sample_timestamp Sydney
       (VString (js "iso"))
     = ([], Ok (js "2025-05-18T05:36:40"))
  /\ formatTimestamp (reference_host 0) 1747337800000 0 sample_timestamp
       Sydney (VString (js "relative"))
     = ([], Ok (js "in 2 days")).
Proof. repeat split; vm_compute; reflexivity. Qed.

(** C2, where the code departs from it.  A host that reports an unknown time
    zone the way V8 does throws a [RangeError] whose message reads "Invalid
    time zone specified: Not/AZone".  That message does not contain
    "timezone", so the [catch] clause throws it again: the call with
    "Not/AZone" fails, with no warning, where the call with "UTC" returns a
    string. *)
Theorem formatTimestamp_unknown_zone (now : Z) (depth : nat) :
  is_timezone_error (HostError (invalid_time_zone (js "Not/AZone"))) = false
  /\ formatTimestamp (reference_host 0) now depth sample_timestamp
       (VString (js "Not/AZone")) default_mode
     = ([], Err (HostError (invalid_time_zone (js "Not/AZone"))))
  /\ formatTimestamp (reference_host 0) now depth sample_timestamp UTC
       default_mode
     = ([], Ok (js "Sat, 17 May 2025 at 7:36 pm")).
Proof.
  repeat split; try rewrite formatTimestamp_eq; vm_compute; reflexivity.
Qed.

(** The retry does run when the message of the host happens to contain
    "timezone", here through the name that was passed. *)
Example formatTimestamp_retry_runs :
  formatTimestamp (reference_host 0) 0 1 sample_timestamp
    (VString (js "my timezone")) default_mode
  = ([fallback_warning (js "my timezone")],
     Ok (js "Sat, 17 May 2025 at 7:36 pm")).
Proof. vm_compute. reflexivity. Qed.

(** C3 as stated fails when the time zone is absent: the default "UTC"
    takes its place and the call returns a string. *)
Lemma formatTimestamp_absent_timezone :
  formatTimestamp (reference_host 0) 0 0 sample_timestamp VUndefined
    default_mode
  = ([], Ok (js "Sat, 17 May 2025 at 7:36 pm"))
  /\ snd (formatTimestamp (reference_host 0) 0 0 sample_timestamp VUndefined
            default_mode)
     <> Err InvalidTimezoneError.
Proof. split; vm_compute; [reflexivity | discriminate]. Qed.

Lemma formatTimestamp_preconditions_witness :
  formatTimestamp (reference_host 0) 0 0 (VNumber (num_of_Z (-1))) UTC
    default_mode
  = ([], Err InvalidTimestampError)
  /\ formatTimestamp (reference_host 0) 0 0 sample_timestamp (VString [])
       default_mode
     = ([], Err InvalidTimezoneError).
Proof.
  split.
  - apply (proj1 (formatTimestamp_preconditions (reference_host 0) 0 0
                    (VNumber (num_of_Z (-1))) UTC default_mode)).
    right. exists (num_of_Z (-1)). split; vm_compute; reflexivity.
  - apply (proj1 (proj2 (formatTimestamp_preconditions (reference_host 0) 0 0
                           sample_timestamp (VString []) default_mode))).
    + vm_compute. reflexivity.
    + discriminate.
    + left. reflexivity.
Defined.

(** Only the [iso] branch consults the host for anything but
    [Intl.DateTimeFormat]: in every other mode, two hosts whose
    [Intl.DateTimeFormat] formats alike give the same outcome, whatever
    their local zones. *)
Lemma formatTimestamp_try_format_only (h1 h2 : Host) (now : Z) (t : number)
    (tz : jsstring) (mode : value) :
  DateTimeFormat_format h1 = DateTimeFormat_format h2 ->
  is_literal mode "iso" = false ->
  formatTimestamp_try h1 now t tz mode = formatTimestamp_try h2 now t tz mode.
Proof.
  intros Hformat Hiso. unfold formatTimestamp_try.
  rewrite Hformat, Hiso. reflexivity.
Qed.

Lemma formatTimestamp_host_zone_free (h1 h2 : Host) (now : Z) (depth : nat)
    (timestamp timezone mode : value) :
  DateTimeFormat_format h1 = DateTimeFormat_format h2 ->
  is_literal (default_arg mode default_mode) "iso" = false ->
  formatTimestamp h1 now depth timestamp timezone mode
  = formatTimestamp h2 now depth timestamp timezone mode.
Proof.
  intros Hformat. revert timezone mode.
  induction depth as [|depth IH]; intros timezone mode Hiso;
    rewrite !formatTimestamp_eq; cbv zeta;
    destruct timestamp as [| | |t| |]; try reflexivity;
    destruct (negb (is_finite t) || num_lt t (num_of_Z 0)); try reflexivity;
    destruct (negb (to_boolean (default_arg timezone UTC)) || _);
    try reflexivity;
    destruct (default_arg timezone UTC) as [| | | |tz|]; try reflexivity;
    rewrite (formatTimestamp_try_format_only h1 h2) by assumption;
    destruct (formatTimestamp_try h2 now t tz _); try reflexivity;
    destruct (is_timezone_error e); try reflexivity.
  rewrite (IH UTC (default_arg mode default_mode));
    [reflexivity|now rewrite default_arg_idem].
Qed.

(** C6, where the code departs from it.  In mode [iso] the wall-clock text
    of the requested zone is read back by [new Date(text)] in the local zone
    of the host.  The same call, for Sydney, returns the Sydney time on a
    host set to UTC and another string on a host set ten hours ahead: there
    it returns the UTC time, the string the call for the zone "UTC" gives,
    and not the local time of the requested zone. *)
Theorem formatTimestamp_iso_local_zone (now : Z) (depth : nat) :
  formatTimestamp (reference_host 0) now depth sample_timestamp Sydney
    (VString (js "iso"))
  = ([], Ok (js "2025-05-18T05:36:40"))
  /\ formatTimestamp (reference_host 36000000) now depth sample_timestamp
       Sydney (VString (js "iso"))
     = ([], Ok (js "2025-05-17T19:36:40"))
  /\ formatTimestamp (reference_host 0) now depth sample_timestamp Sydney
       (VString (js "iso"))
     <> formatTimestamp (reference_host 36000000) now depth sample_timestamp
          Sydney (VString (js "iso"))
  /\ formatTimestamp (reference_host 36000000) now depth sample_timestamp
       Sydney (VString (js "iso"))
     = formatTimestamp (reference_host 0) now depth sample_timestamp UTC
         (VString (js "iso")).
Proof.
  repeat split; rewrite ?formatTimestamp_eq; vm_compute; try reflexivity.
  discriminate.
Qed.

Lemma formatTimestamp_clock_free_witness :
  DisplayMode.iso <> DisplayMode.relative
  /\ formatTimestamp (reference_host 0) 0 0 sample_timestamp Sydney
       (DisplayMode.to_value DisplayMode.iso)
     = formatTimestamp (reference_host 0) 1747510600000 0 sample_timestamp
         Sydney (DisplayMode.to_value DisplayMode.iso).
Proof.
  assert (H : DisplayMode.iso <> DisplayMode.relative) by discriminate.
  split; [exact H|].
  apply (formatTimestamp_clock_free (reference_host 0) 0 1747510600000 0
           sample_timestamp Sydney DisplayMode.iso H).
Defined.

Lemma formatTimestamp_unrecognized_mode_witness :
  (forall m : DisplayMode.t, VString (js "verbose") <> DisplayMode.to_value m)
  /\ formatTimestamp (reference_host 0) 0 0 sample_timestamp Sydney
       (VString (js "verbose"))
     = formatTimestamp (reference_host 0) 0 0 sample_timestamp Sydney
         (DisplayMode.to_value DisplayMode.default).
Proof.
  assert (H : forall m : DisplayMode.t,
             VString (js "verbose") <> DisplayMode.to_value m)
    by (intros []; discriminate).
  split; [exact H|].
  apply (formatTimestamp_unrecognized_mode (reference_host 0) 0 0
           sample_timestamp Sydney (VString (js "verbose")) H).
Defined.

Lemma safeFormatTimestamp_absorbs_witness :
  snd (safeFormatTimestamp (reference_host 0) 0 0 sample_timestamp Sydney
         (VString (js "date")) (VString (js "Error occurred")))
  = VString (js "18 May 2025")
  /\ snd (safeFormatTimestamp (reference_host 0) 0 0 sample_timestamp
            (VString (js "Not/AZone")) default_mode
            (VString (js "Error occurred")))
     = VString (js "Error occurred").
Proof.
  split.
  - apply (proj1 (safeFormatTimestamp_absorbs (reference_host 0) 0 0
                    sample_timestamp Sydney (VString (js "date"))
                    (VString (js "Error occurred")))).
    vm_compute. reflexivity.
  - apply (proj1 (proj2 (safeFormatTimestamp_absorbs (reference_host 0) 0 0
                           sample_timestamp (VString (js "Not/AZone"))
                           default_mode (VString (js "Error occurred"))))
             (HostError (invalid_time_zone (js "Not/AZone")))).
    vm_compute. reflexivity.
Defined.


Lemma validateTimestamp_range_witness :
  validateTimestamp (VString (js "1747510600")) = Some (num_of_Z 1747510600).
Proof.
  apply (proj2 (proj1 (validateTimestamp_range (js "1747510600"))
                  (num_of_Z 1747510600))).
  exists 1747510600. split; [|split; [lia | reflexivity]].
  apply parseInt10_parses. vm_compute. reflexivity.
Defined.

(** * The rest of the timestamp module *)

(** ** Validation and printing *)

Lemma validateTimestamp_decimal (n : Z) (rest : jsstring) :
  0 <= n <= 4102444800 ->
  match rest with [] => True | c :: _ => is_digit c = false end ->
  validateTimestamp (VString (decimal n ++ rest)) = Some (num_of_Z n).
Proof.
  intros Hn Hrest.
  rewrite (validateTimestamp_parsed _ n) by (apply parses_decimal; [lia|auto]).
  destruct (Z.ltb_spec n 0); [lia|].
  destruct (Z.ltb_spec 4102444800 n); [lia|]. reflexivity.
Qed.

Lemma Number_toString_nonneg (n : Z) : 0 <= n -> Number_toString n = decimal n.
Proof.
  intros Hn. unfold Number_toString. destruct (Z.ltb_spec n 0); [lia|].
  reflexivity.
Qed.

(** X1.  Printing a timestamp of the validated range and validating the text
    gives the timestamp back. *)
Theorem validateTimestamp_roundtrip (n : Z) :
  0 <= n <= 4102444800 ->
  validateTimestamp (VString (Number_toString n)) = Some (num_of_Z n).
Proof.
  intros Hn. rewrite Number_toString_nonneg by lia.
  rewrite <- (app_nil_r (decimal n)).
  apply validateTimestamp_decimal; [exact Hn | exact I].
Qed.

Lemma validateTimestamp_roundtrip_witness :
  validateTimestamp (VString (Number_toString 1747510600))
  = Some (num_of_Z 1747510600).
Proof. apply (validateTimestamp_roundtrip 1747510600). lia. Defined.

Lemma getCurrentTimestamp_div (now : Z) : getCurrentTimestamp now = now / 1000.
Proof.
  unfold getCurrentTimestamp.
  assert (H : (inject_Z now / 1000 == now # 1000)%Q).
  { unfold Qeq. cbn -[Z.mul]. ring. }
  rewrite (Qfloor_comp _ _ H). reflexivity.
Qed.

(** X2.  [getCurrentTimestamp] is the number of whole seconds on the clock;
    while the clock reads a date from 1970 to the first second of 2100, the
    link the landing page builds from it passes [validateTimestamp]. *)
Theorem getCurrentTimestamp_validates (now : Z) :
  0 <= now < 4102444801000 ->
  1000 * getCurrentTimestamp now <= now < 1000 * getCurrentTimestamp now + 1000
  /\ validateTimestamp (VString (Number_toString (getCurrentTimestamp now)))
     = Some (num_of_Z (getCurrentTimestamp now)).
Proof.
  intros Hnow. rewrite getCurrentTimestamp_div.
  pose proof (Z.div_mod now 1000 ltac:(lia)) as Hdm.
  pose proof (Z.mod_pos_bound now 1000 ltac:(lia)) as Hmod.
  split; [lia|].
  assert (Hr : 0 <= now / 1000 <= 4102444800).
  { split; [apply Z.div_pos; lia|].
    apply Z.lt_succ_r. apply Z.div_lt_upper_bound; lia. }
  rewrite Number_toString_nonneg by lia.
  rewrite <- (app_nil_r (decimal (now / 1000))).
  apply validateTimestamp_decimal; [exact Hr | exact I].
Qed.

Lemma getCurrentTimestamp_validates_witness :
  1000 * getCurrentTimestamp 1747510600123 <= 1747510600123
  /\ validateTimestamp
       (VString (Number_toString (getCurrentTimestamp 1747510600123)))
     = Some (num_of_Z (getCurrentTimestamp 1747510600123)).
Proof.
  destruct (getCurrentTimestamp_validates 1747510600123) as [[Hlo _] Hv];
    [lia|].
  split; [exact Hlo | exact Hv].
Defined.

(** ** Validation, then formatting *)

Lemma validateTimestamp_valid (raw : value) (t : number) :
  validateTimestamp raw = Some t ->
  exists n : Z, t = num_of_Z n /\ 0 <= n <= 4102444800.
Proof.
  intros H. destruct raw as [| | | |s|];
    try (unfold validateTimestamp in H; simpl in H;
         repeat match type of H with
                | (if ?c then _ else _) = _ => destruct c
                end; discriminate).
  apply validateTimestamp_some in H as (n & _ & Hn & ->). eauto.
Qed.

Lemma TimeClip_validated (n : Z) :
  0 <= n <= 4102444800 ->
  TimeClip (num_mul (num_of_Z n) (num_of_Z 1000)) = Some (n * 1000).
Proof.
  intros Hn. unfold TimeClip, num_mul, num_of_Z.
  rewrite <- inject_Z_mult.
  assert (Hpos : (0 <= inject_Z (n * 1000))%Q).
  { change 0%Q with (inject_Z 0). rewrite <- Zle_Qle. lia. }
  destruct (Qltb _ _) eqn:Hclip.
  - apply Qltb_lt in Hclip. rewrite (Qabs_pos _ Hpos) in Hclip.
    rewrite <- Zlt_Qlt in Hclip. lia.
  - f_equal. unfold Qtruncate.
    apply Qle_bool_iff in Hpos. rewrite Hpos. apply Qfloor_Z.
Qed.

Section Formatting.

Variable h : Host.

(** With a timestamp that passes the first check and a time zone that is a
    string with something in it, what [formatTimestamp] throws comes from
    its [try] block or from the stack. *)
Lemma formatTimestamp_errors (now : Z) (depth : nat) (t : number)
    (tz : jsstring) (mode : value) (e : error) :
  isValidTimestamp (VNumber t) = true -> tz <> [] ->
  snd (formatTimestamp h now depth (VNumber t) (VString tz) mode) = Err e ->
  e = stack_overflow
  \/ exists tz', formatTimestamp_try h now t tz'
                   (default_arg mode default_mode) = Err e.
Proof.
  intros Ht. revert tz mode.
  assert (Hcheck : negb (is_finite t) || num_lt t (num_of_Z 0) = false).
  { destruct t as [| | |q]; try discriminate. simpl in Ht.
    unfold num_lt, num_of_Z, Qltb. rewrite Ht. reflexivity. }
  induction depth as [|depth IH]; intros tz mode Htz;
    rewrite formatTimestamp_eq; cbv zeta; rewrite Hcheck;
    (destruct tz as [|c tz]; [congruence|]); simpl default_arg;
    simpl to_boolean; simpl is_string; simpl orb; cbv iota;
    destruct (formatTimestamp_try h now t (c :: tz) _) as [text|e'] eqn:Htry;
    try discriminate;
    (destruct (is_timezone_error e') eqn:He;
     [| simpl; intros [= <-]; right; eauto]).
  - simpl. intros [= <-]. left. reflexivity.
  - specialize (IH (js "UTC") (default_arg mode default_mode)
                  ltac:(discriminate)).
    rewrite default_arg_idem in IH.
    unfold UTC.
    destruct (formatTimestamp h now depth _ _ _) as [log r]. exact IH.
Qed.

(** X3.  When the timestamp comes from [validateTimestamp] and the time zone
    is a string with something in it, [formatTimestamp] throws none of its
    own three errors (invalid timestamp, invalid timezone, invalid date):
    whatever it throws was thrown by the host. *)
Theorem validated_format_errors (now : Z) (depth : nat) (raw : value)
    (t : number) (tz : jsstring) (mode : value) (e : error) :
  validateTimestamp raw = Some t -> tz <> [] ->
  snd (formatTimestamp h now depth (VNumber t) (VString tz) mode) = Err e ->
  exists thrown_value : thrown, e = HostError thrown_value.
Proof.
  intros Hv Htz Herr.
  apply validateTimestamp_valid in Hv as (n & -> & Hn).
  assert (Hvalid : isValidTimestamp (VNumber (num_of_Z n)) = true).
  { simpl. apply Qle_bool_iff. change 0%Q with (inject_Z 0).
    rewrite <- Zle_Qle. lia. }
  destruct (formatTimestamp_errors now depth _ tz mode e Hvalid Htz Herr)
    as [->|(tz' & Htry)].
  - eexists. reflexivity.
  - unfold formatTimestamp_try in Htry.
    rewrite (TimeClip_validated n Hn) in Htry.
    rewrite getRelativeTime_refines in Htry.
    unfold toISOString, bind, lift_host in Htry.
    destruct (is_literal _ "date").
    { destruct (DateTimeFormat_format h _ _ _); [discriminate|].
      injection Htry as <-. eauto. }
    destruct (is_literal _ "compact").
    { destruct (DateTimeFormat_format h _ _ _); [discriminate|].
      injection Htry as <-. eauto. }
    destruct (is_literal _ "iso").
    { destruct (Date_toLocaleString h _ _ _);
        [|injection Htry as <-; eauto].
      destruct (Date_parse h _); [discriminate|].
      injection Htry as <-. eauto. }
    destruct (is_literal _ "relative"); [discriminate|].
    destruct (DateTimeFormat_format h _ _ _); [discriminate|].
    injection Htry as <-. eauto.
Qed.

End Formatting.

Lemma validated_format_errors_witness :
  exists thrown_value : thrown,
    HostError (invalid_time_zone (js "Not/AZone")) = HostError thrown_value.
Proof.
  apply (validated_format_errors (reference_host 0) 0 0
           (VString (js "1747510600")) (num_of_Z 1747510600)
           (js "Not/AZone") default_mode).
  - vm_compute. reflexivity.
  - discriminate.
  - vm_compute. reflexivity.
Defined.

(** ** The retry *)

Section Retry.

Variable h : Host.

(** X4.  When the [try] block fails with a [RangeError] whose message
    contains "timezone" and the same block goes through with "UTC" (or
    fails there in another way), the call logs one warning and completes
    as the block did with "UTC". *)
Theorem formatTimestamp_retry_outcome (now : Z) (depth : nat) (t : number)
    (tz : jsstring) (mode : value) (e : error) :
  isValidTimestamp (VNumber t) = true -> tz <> [] ->
  formatTimestamp_try h now t tz (default_arg mode default_mode) = Err e ->
  is_timezone_error e = true ->
  (forall e',
      formatTimestamp_try h now t (js "UTC") (default_arg mode default_mode)
      = Err e' -> is_timezone_error e' = false) ->
  formatTimestamp h now (S depth) (VNumber t) (VString tz) mode
  = ([fallback_warning tz],
     formatTimestamp_try h now t (js "UTC") (default_arg mode default_mode)).
Proof.
  intros Ht Htz Htry He Hutc.
  rewrite (formatTimestamp_retry h now depth t tz mode e Ht Htz Htry He).
  rewrite formatTimestamp_eq. cbv zeta.
  destruct t as [| | |q]; try discriminate. simpl in Ht.
  unfold num_lt, num_of_Z, Qltb. rewrite Ht. simpl.
  destruct (formatTimestamp_try h now (Fin q) (js "UTC") _) as [text|e']
    eqn:Htry'; [reflexivity|].
  rewrite (Hutc e' eq_refl). reflexivity.
Qed.

Lemma formatTimestamp_utc_rejected (now : Z) (depth : nat) (t : number)
    (mode : value) (e : error) :
  isValidTimestamp (VNumber t) = true ->
  formatTimestamp_try h now t (js "UTC") (default_arg mode default_mode)
  = Err e ->
  is_timezone_error e = true ->
  formatTimestamp h now depth (VNumber t) UTC mode
  = (repeat (fallback_warning (js "UTC")) (S depth), Err stack_overflow).
Proof.
  intros Ht Htry He.
  assert (Hcheck : negb (is_finite t) || num_lt t (num_of_Z 0) = false).
  { destruct t as [| | |q]; try discriminate. simpl in Ht.
    unfold num_lt, num_of_Z, Qltb. rewrite Ht. reflexivity. }
  induction depth as [|depth IH]; rewrite formatTimestamp_eq; cbv zeta;
    rewrite Hcheck; simpl default_arg; simpl to_boolean; simpl is_string;
    simpl orb; cbv iota; unfold UTC at 1; cbv iota; rewrite Htry, He.
  - reflexivity.
  - rewrite <- (formatTimestamp_defaults h now depth (VNumber t) UTC mode)
      in IH.
    simpl (default_arg UTC UTC) in IH. rewrite IH. reflexivity.
Qed.

(** X5.  The retry is a recursive call with no bound: when the host rejects
    "UTC" too with such a [RangeError], the call warns once for every frame
    the stack has room for and ends with the stack exhausted. *)
Theorem formatTimestamp_retry_unbounded (now : Z) (depth : nat) (t : number)
    (tz : jsstring) (mode : value) (e e' : error) :
  isValidTimestamp (VNumber t) = true -> tz <> [] ->
  formatTimestamp_try h now t tz (default_arg mode default_mode) = Err e ->
  is_timezone_error e = true ->
  formatTimestamp_try h now t (js "UTC") (default_arg mode default_mode)
  = Err e' ->
  is_timezone_error e' = true ->
  formatTimestamp h now (S depth) (VNumber t) (VString tz) mode
  = (fallback_warning tz :: repeat (fallback_warning (js "UTC")) (S depth),
     Err stack_overflow).
Proof.
  intros Ht Htz Htry He Htry' He'.
  rewrite (formatTimestamp_retry h now depth t tz mode e Ht Htz Htry He).
  rewrite (formatTimestamp_utc_rejected now depth t mode e' Ht Htry' He').
  reflexivity.
Qed.

(** X6.  [convertTimestamp] fails exactly as [formatTimestamp] fails on the
    same arguments, with the same console calls; when it returns, the record
    holds the string of [formatTimestamp] and the time zone and mode that
    were used, the defaults standing in for absent ones. *)
Theorem convertTimestamp_formatTimestamp (now : Z) (depth : nat)
    (timestamp timezone mode : value) :
  convertTimestamp h now depth timestamp timezone mode
  = (fst (formatTimestamp h now depth timestamp timezone mode),
     match snd (formatTimestamp h now depth timestamp timezone mode) with
     | Ok text =>
         Ok {| TimestampConversion.timestamp := timestamp;
               TimestampConversion.formattedDate := text;
               TimestampConversion.timezone := default_arg timezone UTC;
               TimestampConversion.mode := default_arg mode default_mode |}
     | Err e => Err e
     end)
  /\ default_arg timezone UTC <> VUndefined
  /\ default_arg mode default_mode <> VUndefined.
Proof.
  split; [|split].
  - unfold convertTimestamp. rewrite formatTimestamp_defaults.
    destruct (formatTimestamp h now depth timestamp timezone mode)
      as [log [text|e]];
      reflexivity.
  - destruct timezone; discriminate.
  - destruct mode; discriminate.
Qed.

End Retry.

Lemma formatTimestamp_retry_outcome_witness :
  formatTimestamp (reference_host 0) 0 1 sample_timestamp
    (VString (js "my timezone")) default_mode
  = ([fallback_warning (js "my timezone")],
     Ok (js "Sat, 17 May 2025 at 7:36 pm")).
Proof.
  apply (formatTimestamp_retry_outcome (reference_host 0) 0 0
           (num_of_Z 1747510600) (js "my timezone") default_mode
           (HostError (invalid_time_zone (js "my timezone")))).
  - vm_compute. reflexivity.
  - discriminate.
  - vm_compute. reflexivity.
  - vm_compute. reflexivity.
  - intros e' H. vm_compute in H. discriminate.
Defined.

Lemma formatTimestamp_retry_unbounded_witness :
  formatTimestamp zoneless_host 0 3 sample_timestamp Sydney default_mode
  = (fallback_warning (js "Australia/Sydney")
       :: repeat (fallback_warning (js "UTC")) 3,
     Err stack_overflow).
Proof.
  apply (formatTimestamp_retry_unbounded zoneless_host 0 2
           (num_of_Z 1747510600) (js "Australia/Sydney") default_mode
           (HostError (Throw true (js "No timezone data")))
           (HostError (Throw true (js "No timezone data")))).
  - vm_compute. reflexivity.
  - discriminate.
  - vm_compute. reflexivity.
  - vm_compute. reflexivity.
  - vm_compute. reflexivity.
  - vm_compute. reflexivity.
Defined.

(** ** The time zone of the browser *)

Lemma formatTimestamp_try_errors (h : Host) (now : Z) (t : number)
    (tz : jsstring) (mode : value) (e : error) :
  formatTimestamp_try h now t tz mode = Err e ->
  e = InvalidDateError \/ exists thrown_value, e = HostError thrown_value.
Proof.
  unfold formatTimestamp_try. intros Htry.
  destruct (TimeClip _) as [time|]; [|injection Htry as <-; auto].
  rewrite getRelativeTime_refines in Htry.
  unfold toISOString, bind, lift_host in Htry. right.
  destruct (is_literal _ "date").
  { destruct (DateTimeFormat_format h _ _ _); [discriminate|].
    injection Htry as <-. eauto. }
  destruct (is_literal _ "compact").
  { destruct (DateTimeFormat_format h _ _ _); [discriminate|].
    injection Htry as <-. eauto. }
  destruct (is_literal _ "iso").
  { destruct (Date_toLocaleString h _ _ _);
      [|injection Htry as <-; eauto].
    destruct (Date_parse h _); [discriminate|].
    injection Htry as <-. eauto. }
  destruct (is_literal _ "relative"); [discriminate|].
  destruct (DateTimeFormat_format h _ _ _); [discriminate|].
  injection Htry as <-. eauto.
Qed.

Lemma formatTimestamp_timezone_accepted (h : Host) (now : Z) (depth : nat)
    (timestamp : value) (tz : jsstring) (mode : value) :
  tz <> [] ->
  snd (formatTimestamp h now depth timestamp (VString tz) mode)
  <> Err InvalidTimezoneError.
Proof.
  revert tz mode.
  induction depth as [|depth IH]; intros tz mode Htz;
    rewrite formatTimestamp_eq; cbv zeta;
    destruct timestamp as [| | |t| |]; try (simpl; discriminate);
    destruct (negb (is_finite t) || num_lt t (num_of_Z 0));
    try (simpl; discriminate);
    (destruct tz as [|c tz]; [congruence|]); simpl default_arg;
    simpl to_boolean; simpl is_string; simpl orb; cbv iota;
    destruct (formatTimestamp_try h now t (c :: tz) _) as [text|e] eqn:Htry;
    try (simpl; discriminate);
    (destruct (is_timezone_error e) eqn:He;
     [| simpl; intros [= ->];
        apply formatTimestamp_try_errors in Htry as [Hd|(th & Hh)];
        discriminate]).
  - simpl. discriminate.
  - specialize (IH (js "UTC") (default_arg mode default_mode)
                  ltac:(discriminate)).
    unfold UTC. destruct (formatTimestamp h now depth _ _ _). exact IH.
Qed.

(** X7.  [getBrowserTimezone] always returns a string with something in it:
    the time zone the host resolves when that is such a string, with no
    console call, and "UTC" after one warning in every other case.
    [formatTimestamp] never throws its invalid-timezone error on it. *)
Theorem getBrowserTimezone_usable (env : DateTimeFormat_env) :
  snd (getBrowserTimezone env) <> []
  /\ (forall tz,
         env = DateTimeFormat_timeZone (VString tz) -> tz <> [] ->
         getBrowserTimezone env = ([], tz))
  /\ ((forall tz, env = DateTimeFormat_timeZone (VString tz) -> tz = []) ->
      snd (getBrowserTimezone env) = js "UTC"
      /\ List.length (fst (getBrowserTimezone env)) = 1%nat)
  /\ (forall (h : Host) (now : Z) (depth : nat) (timestamp mode : value),
         snd (formatTimestamp h now depth timestamp
                (VString (snd (getBrowserTimezone env))) mode)
         <> Err InvalidTimezoneError).
Proof.
  assert (Hne : snd (getBrowserTimezone env) <> []).
  { destruct env as [|t|[| | | |[|c s]|]]; simpl; try discriminate.
    - destruct b; discriminate.
    - destruct n as [| | |q]; try discriminate.
      destruct (Qeq_bool q 0); discriminate. }
  split; [exact Hne|]. split; [|split].
  - intros tz -> Htz. destruct tz; [congruence|reflexivity].
  - intros Hnot. destruct env as [|t|[| | | |[|c s]|]]; simpl; auto.
    + destruct b; auto.
    + destruct n as [| | |q]; auto. destruct (Qeq_bool q 0); auto.
    + specialize (Hnot (c :: s) eq_refl). discriminate.
  - intros h now depth timestamp mode.
    now apply formatTimestamp_timezone_accepted.
Qed.

Lemma getBrowserTimezone_usable_witness :
  getBrowserTimezone (DateTimeFormat_timeZone Sydney)
  = ([], js "Australia/Sydney")
  /\ snd (getBrowserTimezone (DateTimeFormat_timeZone VUndefined)) = js "UTC".
Proof.
  split.
  - apply (proj1 (proj2 (getBrowserTimezone_usable
                           (DateTimeFormat_timeZone Sydney)))
             (js "Australia/Sydney")); [reflexivity | discriminate].
  - apply (proj1 (proj2 (proj2 (getBrowserTimezone_usable
                                  (DateTimeFormat_timeZone VUndefined))))).
    intros tz H. discriminate.
Defined.

(** ** The magnitudes of the relative time *)

Lemma spec_round_ge_1 (a b : Z) : 0 < b -> b <= a -> 1 <= spec_round a b.
Proof.
  intros Hb Ha. unfold spec_round.
  apply Z.div_le_lower_bound; lia.
Qed.

Lemma spec_round_le_m1 (a b : Z) : 0 < b -> a <= - b -> spec_round a b <= -1.
Proof.
  intros Hb Ha. unfold spec_round.
  assert (H : (2 * a + b) / (2 * b) < 0); [|lia].
  apply Z.div_lt_upper_bound; lia.
Qed.

Lemma spec_round_abs_ge_1 (a b : Z) :
  0 < b -> b <= Z.abs a -> 1 <= Z.abs (spec_round a b).
Proof.
  intros Hb Ha. destruct (Z.le_gt_cases 0 a).
  - pose proof (spec_round_ge_1 a b Hb ltac:(lia)). lia.
  - pose proof (spec_round_le_m1 a b Hb ltac:(lia)). lia.
Qed.

Lemma spec_round_abs_le (a b m : Z) :
  0 < b -> Z.abs a <= b * m -> Z.abs (spec_round a b) <= m.
Proof.
  intros Hb Ha. pose proof (spec_round_nearest a b Hb) as Hr.
  assert (0 <= m) by nia. nia.
Qed.

(** The magnitude a unit can show. *)
Lemma spec_bucket_range (diffMs : Z) :
  let '(u, n) := spec_bucket diffMs in
  match u with
  | Year => 1 <= Z.abs n
  | Week => 1 <= Z.abs n <= 52
  | Day => 1 <= Z.abs n <= 6
  | Hour => 1 <= Z.abs n <= 23
  | Minute => 1 <= Z.abs n <= 59
  | Second => Z.abs n <= 59
  end.
Proof.
  unfold spec_bucket.
  set (diffSec := spec_round diffMs 1000).
  set (diffMin := spec_round diffSec 60).
  set (diffHour := spec_round diffMin 60).
  set (diffDay := spec_round diffHour 24).
  destruct (Z.leb_spec 365 (Z.abs diffDay)) as [Hy|Hy].
  { apply spec_round_abs_ge_1; lia. }
  destruct (Z.leb_spec 7 (Z.abs diffDay)) as [Hw|Hw].
  { split; [apply spec_round_abs_ge_1; lia|].
    apply spec_round_abs_le; lia. }
  destruct (Z.ltb_spec (Z.abs diffSec) 60) as [Hs|Hs]; [lia|].
  assert (Hmin : 1 <= Z.abs diffMin)
    by (apply spec_round_abs_ge_1; lia).
  destruct (Z.ltb_spec (Z.abs diffMin) 60) as [Hm|Hm]; [lia|].
  assert (Hhour : 1 <= Z.abs diffHour)
    by (apply spec_round_abs_ge_1; lia).
  destruct (Z.ltb_spec (Z.abs diffHour) 24) as [Hh|Hh]; [lia|].
  assert (Hday : 1 <= Z.abs diffDay)
    by (apply spec_round_abs_ge_1; lia).
  lia.
Qed.

(** X8.  The phrase of [getRelativeTime] never counts zero of a unit larger
    than the second, and never reaches the next unit: it shows 0 to 59
    seconds, 1 to 59 minutes, 1 to 23 hours, 1 to 6 days, 1 to 52 weeks, or
    1 or more years. *)
Theorem getRelativeTime_magnitudes (target now : Z) :
  exists (u : time_unit) (n : Z),
    getRelativeTime (Some target) now = Ok (spec_phrase u n)
    /\ match u with
       | Year => 1 <= Z.abs n
       | Week => 1 <= Z.abs n <= 52
       | Day => 1 <= Z.abs n <= 6
       | Hour => 1 <= Z.abs n <= 23
       | Minute => 1 <= Z.abs n <= 59
       | Second => Z.abs n <= 59
       end.
Proof.
  rewrite getRelativeTime_refines.
  pose proof (spec_bucket_range (target - now)) as Hr.
  destruct (spec_bucket (target - now)) as [u n].
  exists u, n. split; [reflexivity | exact Hr].
Qed.

(** * The page of a timestamp *)

Lemma recognized_mode_string (m : jsstring) :
  recognized_mode (VString m) = isValidDisplayMode m.
Proof. reflexivity. Qed.

(** X9.  The mode the page takes from the query is always one of the five
    members of [DisplayMode], and it is the mode of the query when that is
    one of them.  Replacing the others by [default] changes nothing for
    [formatTimestamp], which would have treated them as [default]. *)
Theorem TimestampPage_mode_member (modeParam : option jsstring) :
  (exists m : DisplayMode.t,
      TimestampPage_mode modeParam = DisplayMode.to_value m)
  /\ (forall m : DisplayMode.t,
         modeParam = Some (js (DisplayMode.literal m)) ->
         TimestampPage_mode modeParam = DisplayMode.to_value m)
  /\ (forall (h : Host) (now : Z) (depth : nat) (timestamp timezone : value),
         formatTimestamp h now depth timestamp timezone
           (TimestampPage_mode modeParam)
         = formatTimestamp h now depth timestamp timezone
             (match modeParam with Some m => VString m | None => VNull end)).
Proof.
  split; [|split].
  - destruct modeParam as [m|]; [|exists DisplayMode.default; reflexivity].
    unfold TimestampPage_mode.
    destruct (to_boolean (VString m) && isValidDisplayMode m) eqn:Hm;
      [|exists DisplayMode.default; reflexivity].
    apply andb_true_iff in Hm as [_ Hm].
    rewrite <- recognized_mode_string in Hm.
    now apply recognized_mode_members in Hm.
  - intros m ->. destruct m; reflexivity.
  - intros h now depth timestamp timezone.
    destruct modeParam as [m|].
    + unfold TimestampPage_mode.
      destruct (to_boolean (VString m) && isValidDisplayMode m) eqn:Hm;
        [reflexivity|].
      destruct (isValidDisplayMode m) eqn:Hvalid.
      * rewrite andb_true_r in Hm. destruct m; [|discriminate].
        discriminate.
      * apply formatTimestamp_ext. intros t tz. symmetry.
        now apply (formatTimestamp_try_unrecognized h now t tz (VString m)).
    + apply formatTimestamp_ext. intros t tz. reflexivity.
Qed.

Lemma TimestampPage_mode_member_witness :
  TimestampPage_mode (Some (js "iso")) = DisplayMode.to_value DisplayMode.iso.
Proof.
  apply (proj1 (proj2 (TimestampPage_mode_member (Some (js "iso"))))
           DisplayMode.iso).
  reflexivity.
Defined.

Lemma to_boolean_num_of_Z (n : Z) :
  to_boolean (VNumber (num_of_Z n)) = negb (n =? 0).
Proof.
  simpl. f_equal. destruct (Z.eqb_spec n 0) as [->|Hn].
  - reflexivity.
  - apply not_true_iff_false. intros H. apply Qeq_bool_iff in H.
    unfold Qeq in H. simpl in H. lia.
Qed.

(** X10.  When the page has loaded it is no longer loading, and it shows
    "Invalid timestamp provided" exactly when [validateTimestamp] returned
    [null] or returned 0: the timestamp 0, which [validateTimestamp]
    accepts, is turned away by the page. *)
Theorem TimestampPage_load_invalid (h : Host) (env : DateTimeFormat_env)
    (now : Z) (depth : nat) (timestampParam : jsstring)
    (modeParam : option jsstring) :
  let state :=
    snd (TimestampPage_load h env now depth timestampParam modeParam) in
  PageState.isLoading state = false
  /\ (PageState.error state = js "Invalid timestamp provided"
      <-> validateTimestamp (VString timestampParam) = None
          \/ validateTimestamp (VString timestampParam)
             = Some (num_of_Z 0))
  /\ validateTimestamp (VString (js "0")) = Some (num_of_Z 0).
Proof.
  cbv zeta. unfold TimestampPage_load, TimestampPage_effect.
  destruct (validateTimestamp (VString timestampParam)) as [t|] eqn:Hv.
  - apply validateTimestamp_valid in Hv as (n & -> & Hn).
    rewrite to_boolean_num_of_Z, negb_involutive.
    destruct (Z.eqb_spec n 0) as [->|Hn0].
    + simpl. repeat split; auto.
    + destruct (getBrowserTimezone env) as [log1 tz].
      destruct (formatTimestamp h now depth _ _ _) as [log2 [text|e]];
        simpl; (split; [reflexivity|]); (split; [|reflexivity]);
        (split;
         [ intros H; try discriminate H
         | intros [H|H]; [discriminate|];
           injection H as H; congruence ]).
  - simpl. repeat split; auto.
Qed.

(** * The timezones module *)

(** ** Names *)

Lemma includes_code_unit (s : jsstring) (c : N) :
  includes s [c] = true <-> In c s.
Proof.
  induction s as [|x s IH]; simpl.
  - split; [discriminate | tauto].
  - rewrite orb_true_iff, andb_true_r, N.eqb_eq, IH.
    split; intros [H|H]; auto.
Qed.

Lemma includes_self (s : jsstring) : includes s s = true.
Proof.
  assert (H : forall p : jsstring, starts_with p p = true).
  { induction p as [|x p IH]; simpl; [reflexivity|].
    now rewrite N.eqb_refl. }
  destruct s; simpl; [reflexivity|]. now rewrite N.eqb_refl, H.
Qed.

Lemma nth_last_index (A : Type) (l : list A) (d : A) :
  nth (List.length l - 1) l d = last l d.
Proof.
  induction l as [|x [|y l] IH]; try reflexivity.
  replace (List.length (x :: y :: l) - 1)%nat
    with (S (List.length (y :: l) - 1)) by (simpl; lia).
  exact IH.
Qed.

Lemma split_nonempty (sep : N) (s : jsstring) : split sep s <> [].
Proof.
  destruct s as [|c s]; simpl; [discriminate|].
  destruct (c =? sep)%N; [discriminate|].
  destruct (split sep s); discriminate.
Qed.

Lemma split_single (sep : N) (s : jsstring) :
  (List.length (split sep s) < 2)%nat <-> ~ In sep s.
Proof.
  induction s as [|c s IH]; simpl.
  - split; [tauto | lia].
  - destruct (N.eqb_spec c sep) as [->|Hc].
    + pose proof (split_nonempty sep s).
      destruct (split sep s); [congruence|]. simpl. split; [lia|tauto].
    + pose proof (split_nonempty sep s).
      destruct (split sep s) as [|p ps]; [congruence|].
      simpl in *. rewrite IH. tauto.
Qed.

(** The last piece of a split is what follows the last separator. *)
Lemma split_last (sep : N) (s : jsstring) :
  exists prefix : jsstring,
    s = prefix ++ last (split sep s) []
    /\ ~ In sep (last (split sep s) [])
    /\ ((List.length (split sep s) < 2)%nat -> prefix = [])
    /\ ((2 <= List.length (split sep s))%nat ->
        exists p, prefix = p ++ [sep]).
Proof.
  induction s as [|c s (prefix & Hs & Hlast & Hone & Hmany)].
  - exists []. simpl. repeat split; auto. lia.
  - pose proof (split_nonempty sep s) as Hne. simpl.
    destruct (N.eqb_spec c sep) as [->|Hc].
    + destruct (split sep s) as [|p ps] eqn:Hsplit; [congruence|].
      exists (sep :: prefix).
      change (last ([] :: p :: ps) []) with (last (p :: ps) (@nil N)).
      repeat split; auto.
      * cbn [app]. f_equal. exact Hs.
      * simpl. lia.
      * intros _. destruct ps as [|p' ps].
        -- rewrite Hone by (simpl; lia). exists []. reflexivity.
        -- destruct Hmany as (q & ->); [simpl; lia|].
           exists (sep :: q). reflexivity.
    + destruct (split sep s) as [|p ps] eqn:Hsplit; [congruence|].
      destruct ps as [|p' ps].
      * exists []. simpl in *. rewrite Hone in Hs by lia. simpl in Hs.
        subst s. repeat split; auto.
        -- intros [H|H]; [congruence | contradiction].
        -- lia.
      * exists (c :: prefix).
        change (last ((c :: p) :: p' :: ps) []) with (last (p :: p' :: ps) (@nil N)).
        repeat split; auto.
        -- cbn [app]. f_equal. exact Hs.
        -- simpl. lia.
        -- intros _. destruct Hmany as (q & ->); [simpl; lia|].
           exists (c :: q). reflexivity.
Qed.

Lemma underscores_to_spaces_clean (text : jsstring) :
  ~ In 95%N (underscores_to_spaces text).
Proof.
  unfold underscores_to_spaces. rewrite in_map_iff.
  intros (c & Hc & _). destruct (N.eqb_spec c 95); [discriminate | congruence].
Qed.

(** X11.  For a time zone name with a slash in it, [formatTimezoneName] is
    what follows the last slash, each underscore turned into a space: the
    result has neither slash nor underscore.  A name without a slash is
    returned as it is, and the empty name gives "Unknown". *)
Theorem formatTimezoneName_city (timezone : jsstring) :
  (In 47%N timezone ->
   exists region city : jsstring,
     timezone = region ++ 47%N :: city
     /\ ~ In 47%N city
     /\ formatTimezoneName timezone = underscores_to_spaces city
     /\ ~ In 47%N (formatTimezoneName timezone)
     /\ ~ In 95%N (formatTimezoneName timezone))
  /\ (~ In 47%N timezone -> timezone <> [] ->
      formatTimezoneName timezone = timezone)
  /\ formatTimezoneName [] = js "Unknown".
Proof.
  split; [|split]; [| |reflexivity].
  - intros Hin. destruct timezone as [|c s]; [contradiction|].
    unfold formatTimezoneName.
    destruct (Nat.ltb_spec (List.length (split 47 (c :: s))) 2) as [Hlt|Hge].
    { apply split_single in Hlt. contradiction. }
    rewrite nth_last_index.
    destruct (split_last 47 (c :: s)) as (prefix & Hs & Hlast & _ & Hmany).
    destruct (Hmany Hge) as (region & ->).
    exists region, (last (split 47 (c :: s)) []).
    rewrite <- app_assoc in Hs. simpl in Hs.
    repeat split; auto.
    + unfold underscores_to_spaces. rewrite in_map_iff.
      intros (x & Hx & Hx'). destruct (N.eqb_spec x 95); [discriminate|].
      congruence.
    + apply underscores_to_spaces_clean.
  - intros Hno Hne. destruct timezone as [|c s]; [congruence|].
    unfold formatTimezoneName.
    apply split_single in Hno. apply Nat.ltb_lt in Hno. now rewrite Hno.
Qed.

Lemma formatTimezoneName_city_witness :
  ~ In 95%N (formatTimezoneName (js "America/New_York"))
  /\ formatTimezoneName (js "UTC") = js "UTC".
Proof.
  split.
  - destruct (proj1 (formatTimezoneName_city (js "America/New_York")))
      as (region & city & _ & _ & _ & _ & Hclean).
    + vm_compute. tauto.
    + exact Hclean.
  - apply (proj1 (proj2 (formatTimezoneName_city (js "UTC")))).
    + vm_compute. intuition discriminate.
    + discriminate.
Defined.

(** ** Looking up and searching *)

Lemma isValidTimezone_false (v : jsstring) :
  isValidTimezone (VString v) = false
  <-> ~ In 47%N v \/ (List.length v <= 3)%nat.
Proof.
  unfold isValidTimezone.
  destruct (Nat.eqb_spec (List.length v) 0) as [H0|H0].
  - split; [intros _; right; lia | reflexivity].
  - rewrite andb_false_iff, <- not_true_iff_false.
    change (js "/") with [47%N]. rewrite includes_code_unit.
    rewrite Nat.ltb_ge. tauto.
Qed.

Lemma findTimezoneByValue_loop_find (timezoneGroups : list TimezoneGroup.t)
    (value : jsstring) :
  findTimezoneByValue_loop timezoneGroups value
  = find (fun tz => jsstring_eqb (TimezoneOption.value tz) value)
         (all_options timezoneGroups).
Proof.
  induction timezoneGroups as [|g gs IH]; [reflexivity|].
  simpl. unfold all_options in *. simpl.
  induction (TimezoneGroup.timezones g) as [|tz tzs IHt]; simpl; [exact IH|].
  destruct (jsstring_eqb (TimezoneOption.value tz) value); [reflexivity|].
  exact IHt.
Qed.

(** X12.  What [findTimezoneByValue] returns is an option of the groups
    whose value is the one asked for, the first one in the order of the
    groups; it returns [null] exactly when the value is not a valid time
    zone name or no option has it. *)
Theorem findTimezoneByValue_found (timezoneGroups : list TimezoneGroup.t)
    (value : jsstring) :
  (forall found,
      findTimezoneByValue timezoneGroups value = Some found ->
      isValidTimezone (VString value) = true
      /\ TimezoneOption.value found = value
      /\ exists before after,
           all_options timezoneGroups = before ++ found :: after
           /\ ~ In value (List.map TimezoneOption.value before))
  /\ (findTimezoneByValue timezoneGroups value = None
      <-> isValidTimezone (VString value) = false
          \/ ~ In value
                 (List.map TimezoneOption.value (all_options timezoneGroups))).
Proof.
  unfold findTimezoneByValue. rewrite findTimezoneByValue_loop_find.
  destruct (isValidTimezone (VString value)) eqn:Hvalid; simpl.
  - split.
    + intros found Hfind. split; [reflexivity|].
      induction (all_options timezoneGroups) as [|tz tzs IH];
        [discriminate|].
      simpl in Hfind.
      destruct (jsstring_eqb (TimezoneOption.value tz) value) eqn:Heq.
      * injection Hfind as <-. apply jsstring_eqb_eq in Heq.
        split; [exact Heq|]. exists [], tzs. split; [reflexivity|].
        simpl. tauto.
      * destruct (IH Hfind) as (Hv & before & after & -> & Hnot).
        split; [exact Hv|]. exists (tz :: before), after.
        split; [reflexivity|]. simpl. intros [H|H]; [|contradiction].
        rewrite <- H in Heq.
        assert (jsstring_eqb (TimezoneOption.value tz)
                             (TimezoneOption.value tz) = true)
          by now apply jsstring_eqb_eq.
        congruence.
    + split.
      * intros Hnone. right. rewrite in_map_iff. intros (tz & Hv & Hin).
        apply (find_none _ _ Hnone) in Hin.
        apply jsstring_eqb_eq in Hv. congruence.
      * intros [H|Hnot]; [discriminate|].
        destruct (find _ _) as [tz|] eqn:Hfind; [|reflexivity].
        apply find_some in Hfind as [Hin Heq].
        apply jsstring_eqb_eq in Heq. exfalso. apply Hnot.
        rewrite in_map_iff. eauto.
  - split; [discriminate|]. split; auto.
Qed.

Lemma findTimezoneByValue_found_witness :
  TimezoneOption.value (option_of "London" "Europe/London")
  = js "Europe/London".
Proof.
  apply (proj1 (findTimezoneByValue_found commonTimezones
                  (js "Europe/London"))
           (option_of "London" "Europe/London")).
  vm_compute. reflexivity.
Defined.

Section Search.

Variable toLowerCase : jsstring -> jsstring.

Lemma searchTimezones_group_filter (searchTerm : jsstring)
    (timezones results : list TimezoneOption.t) :
  searchTimezones_group toLowerCase searchTerm timezones results
  = results ++ filter (matches toLowerCase searchTerm) timezones.
Proof.
  revert results. induction timezones as [|tz tzs IH]; intros results; simpl.
  - now rewrite app_nil_r.
  - rewrite IH. unfold matches at 2.
    destruct (_ || _); [|reflexivity].
    now rewrite <- app_assoc.
Qed.

Lemma searchTimezones_loop_filter (searchTerm : jsstring)
    (timezoneGroups : list TimezoneGroup.t)
    (results : list TimezoneOption.t) :
  searchTimezones_loop toLowerCase searchTerm timezoneGroups results
  = results
    ++ filter (matches toLowerCase searchTerm) (all_options timezoneGroups).
Proof.
  revert results. induction timezoneGroups as [|g gs IH]; intros results.
  - simpl. now rewrite app_nil_r.
  - simpl. rewrite IH, searchTimezones_group_filter.
    unfold all_options. simpl. rewrite filter_app, app_assoc. reflexivity.
Qed.

Lemma searchTimezones_string (timezoneGroups : list TimezoneGroup.t)
    (query : jsstring) :
  searchTimezones toLowerCase timezoneGroups (VString query)
  = match query with
    | [] => []
    | _ => filter (matches toLowerCase (toLowerCase query))
                  (all_options timezoneGroups)
    end.
Proof.
  destruct query as [|c q]; [reflexivity|].
  unfold searchTimezones. simpl to_boolean. simpl is_string. simpl orb.
  cbv iota. apply searchTimezones_loop_filter.
Qed.

(** X13.  [searchTimezones] returns the options whose name or value, in
    lower case, contains the query in lower case: all of them, in the order
    of the groups, an option once for every group that lists it.  The empty
    query and a query that is not a string find nothing. *)
Theorem searchTimezones_matches (timezoneGroups : list TimezoneGroup.t)
    (query : value) :
  searchTimezones toLowerCase timezoneGroups query
  = match query with
    | VString (c :: q) =>
        filter (matches toLowerCase (toLowerCase (c :: q)))
               (all_options timezoneGroups)
    | _ => []
    end.
Proof.
  destruct query as [| | | |[|c q]|]; try reflexivity.
  - unfold searchTimezones. simpl. destruct b; reflexivity.
  - unfold searchTimezones. destruct n as [| | |x]; try reflexivity.
    simpl. destruct (Qeq_bool x 0); reflexivity.
  - apply searchTimezones_string.
Qed.

(** X14.  Whatever [findTimezoneByValue] finds for a value,
    [searchTimezones] lists when it is asked for that value. *)
Theorem findTimezoneByValue_searchTimezones
    (timezoneGroups : list TimezoneGroup.t) (value : jsstring)
    (found : TimezoneOption.t) :
  findTimezoneByValue timezoneGroups value = Some found ->
  In found (searchTimezones toLowerCase timezoneGroups (VString value)).
Proof.
  unfold findTimezoneByValue. rewrite findTimezoneByValue_loop_find.
  destruct (isValidTimezone (VString value)) eqn:Hvalid; [|discriminate].
  simpl. intros Hfind. apply find_some in Hfind as [Hin Heq].
  apply jsstring_eqb_eq in Heq.
  rewrite searchTimezones_string.
  destruct value as [|c v]; [discriminate|].
  apply filter_In. split; [exact Hin|].
  unfold matches. rewrite Heq, includes_self. apply orb_true_r.
Qed.

Lemma includes_empty (s : jsstring) : includes s [] = true.
Proof. destruct s; reflexivity. Qed.

(** X15.  [getTimezonesByRegion] returns the time zones of the first group
    whose label contains the region, lower case against lower case, and of
    that group only; it returns nothing when no label does.  The empty
    region is contained in every label: it selects the first group. *)
Theorem getTimezonesByRegion_first (region : jsstring) :
  (forall before group after,
      (forall g, In g before ->
                 includes (toLowerCase (TimezoneGroup.label g))
                          (toLowerCase region) = false) ->
      includes (toLowerCase (TimezoneGroup.label group))
               (toLowerCase region) = true ->
      getTimezonesByRegion toLowerCase (before ++ group :: after) region
      = TimezoneGroup.timezones group)
  /\ (forall timezoneGroups,
         (forall g, In g timezoneGroups ->
                    includes (toLowerCase (TimezoneGroup.label g))
                             (toLowerCase region) = false) ->
         getTimezonesByRegion toLowerCase timezoneGroups region = [])
  /\ (toLowerCase [] = [] ->
      forall group rest,
        getTimezonesByRegion toLowerCase (group :: rest) []
        = TimezoneGroup.timezones group).
Proof.
  unfold getTimezonesByRegion. split; [|split].
  - intros before group after Hbefore Hgroup.
    induction before as [|g before IH]; simpl.
    + now rewrite Hgroup.
    + rewrite (Hbefore g) by (left; reflexivity).
      apply IH. intros g' Hg'. apply Hbefore. now right.
  - intros timezoneGroups Hnone.
    induction timezoneGroups as [|g gs IH]; [reflexivity|]. simpl.
    rewrite (Hnone g) by (left; reflexivity).
    apply IH. intros g' Hg'. apply Hnone. now right.
  - intros Hempty group rest. simpl. rewrite Hempty, includes_empty.
    reflexivity.
Qed.

Lemma fold_left_count (timezoneGroups : list TimezoneGroup.t) (sum : nat) :
  fold_left
    (fun sum group => (sum + List.length (TimezoneGroup.timezones group))%nat)
    timezoneGroups sum
  = (sum + List.length (all_options timezoneGroups))%nat.
Proof.
  revert sum. induction timezoneGroups as [|g gs IH]; intros sum; simpl.
  - lia.
  - rewrite IH. unfold all_options. simpl. rewrite length_app. lia.
Qed.

(** X16.  In the statistics, [totalTimezones] counts the options of all
    the groups, an option once for every group that lists it, there is one
    region for each group, and no search returns more than
    [totalTimezones] results. *)
Theorem getTimezoneStats_counts (timezoneGroups : list TimezoneGroup.t) :
  TimezoneStats.totalTimezones (getTimezoneStats timezoneGroups)
  = List.length (all_options timezoneGroups)
  /\ List.length (TimezoneStats.regions (getTimezoneStats timezoneGroups))
     = TimezoneStats.totalGroups (getTimezoneStats timezoneGroups)
  /\ forall query : value,
       (List.length (searchTimezones toLowerCase timezoneGroups query)
        <= TimezoneStats.totalTimezones (getTimezoneStats timezoneGroups))%nat.
Proof.
  assert (Htotal : TimezoneStats.totalTimezones
                     (getTimezoneStats timezoneGroups)
                   = List.length (all_options timezoneGroups)).
  { unfold getTimezoneStats. simpl. now rewrite fold_left_count. }
  split; [exact Htotal|]. split.
  - unfold getTimezoneStats. simpl. apply length_map.
  - intros query. rewrite Htotal.
    destruct query as [| |b|n|q|]; try (simpl; lia).
    + unfold searchTimezones. simpl. destruct b; simpl; lia.
    + unfold searchTimezones. destruct n as [| | |x]; try (simpl; lia).
      simpl. destruct (Qeq_bool x 0); simpl; lia.
    + rewrite searchTimezones_string.
      destruct q; [simpl; lia|apply filter_length_le].
Qed.

End Search.

Lemma findTimezoneByValue_searchTimezones_witness :
  In (option_of "London" "Europe/London")
     (searchTimezones reference_toLowerCase commonTimezones
        (VString (js "Europe/London"))).
Proof.
  apply (findTimezoneByValue_searchTimezones reference_toLowerCase
           commonTimezones (js "Europe/London")).
  vm_compute. reflexivity.
Defined.

Lemma getTimezonesByRegion_first_witness :
  getTimezonesByRegion reference_toLowerCase commonTimezones (js "united")
  = [option_of "London" "Europe/London"]
  /\ getTimezonesByRegion reference_toLowerCase commonTimezones []
     = TimezoneGroup.timezones
         {| TimezoneGroup.label := js "Australia";
            TimezoneGroup.timezones :=
              [ option_of "Sydney" "Australia/Sydney";
                option_of "Melbourne" "Australia/Melbourne";
                option_of "Brisbane" "Australia/Brisbane";
                option_of "Perth" "Australia/Perth";
                option_of "Adelaide" "Australia/Adelaide";
                option_of "Darwin" "Australia/Darwin" ] |}.
Proof.
  split.
  - apply (proj1 (getTimezonesByRegion_first reference_toLowerCase
                    (js "united"))
             (firstn 2 commonTimezones)
             {| TimezoneGroup.label := js "United Kingdom";
                TimezoneGroup.timezones :=
                  [option_of "London" "Europe/London"] |}
             (skipn 3 commonTimezones)).
    + intros g Hg. simpl in Hg.
      destruct Hg as [<-|[<-|[]]]; vm_compute; reflexivity.
    + vm_compute. reflexivity.
  - apply (proj2 (proj2 (getTimezonesByRegion_first reference_toLowerCase
                           []))).
    reflexivity.
Defined.

(** ** The sort of the time zones *)

Lemma jsstring_leb_total (a b : jsstring) :
  jsstring_leb a b = true \/ jsstring_leb b a = true.
Proof.
  revert b. induction a as [|x a IH]; intros [|y b]; simpl; auto.
  destruct (N.ltb_spec x y); auto.
  destruct (N.ltb_spec y x); auto.
Qed.

Lemma jsstring_leb_trans (a b c : jsstring) :
  jsstring_leb a b = true -> jsstring_leb b c = true ->
  jsstring_leb a c = true.
Proof.
  revert b c. induction a as [|x a IH]; intros [|y b] [|z c]; simpl; auto;
    try discriminate.
  destruct (N.ltb_spec x y), (N.ltb_spec y x), (N.ltb_spec y z),
    (N.ltb_spec z y), (N.ltb_spec x z), (N.ltb_spec z x);
    intros; try discriminate; try lia; eauto.
Qed.

Lemma jsstring_leb_antisym (a b : jsstring) :
  jsstring_leb a b = true -> jsstring_leb b a = true -> a = b.
Proof.
  revert b. induction a as [|x a IH]; intros [|y b]; simpl; auto;
    try discriminate.
  destruct (N.ltb_spec x y), (N.ltb_spec y x);
    intros; try discriminate; try lia.
  f_equal; [lia|auto].
Qed.

Lemma sort_insert_Permutation (x : jsstring) (l : list jsstring) :
  Permutation (x :: l) (sort_insert x l).
Proof.
  induction l as [|y l IH]; simpl; [reflexivity|].
  destruct (jsstring_leb x y); [reflexivity|].
  rewrite perm_swap. now apply perm_skip.
Qed.

Lemma Array_sort_Permutation (l : list jsstring) :
  Permutation l (Array_sort l).
Proof.
  induction l as [|x l IH]; simpl; [reflexivity|].
  rewrite <- sort_insert_Permutation. now apply perm_skip.
Qed.

Lemma sort_insert_sorted (x : jsstring) (l : list jsstring) :
  StronglySorted code_unit_le l ->
  StronglySorted code_unit_le (sort_insert x l).
Proof.
  induction 1 as [|y l Hsorted IH Hall]; simpl.
  - repeat constructor.
  - destruct (jsstring_leb x y) eqn:Hxy.
    + constructor; [now constructor|]. constructor; [exact Hxy|].
      eapply Forall_impl; [|exact Hall].
      intros z Hz. eapply jsstring_leb_trans; eauto.
    + constructor; [exact IH|].
      rewrite <- sort_insert_Permutation. constructor; [|exact Hall].
      destruct (jsstring_leb_total x y); [congruence|assumption].
Qed.

Lemma Array_sort_sorted (l : list jsstring) :
  StronglySorted code_unit_le (Array_sort l).
Proof.
  induction l as [|x l IH]; simpl; [constructor|].
  now apply sort_insert_sorted.
Qed.

(** Two sorted lists with the same elements are the same list: the result
    of the sort does not depend on how the host sorts. *)
Lemma sorted_unique (l l' : list jsstring) :
  StronglySorted code_unit_le l -> StronglySorted code_unit_le l' ->
  Permutation l l' -> l = l'.
Proof.
  intros Hl. revert l'. induction Hl as [|x l Hsorted IH Hall];
    intros l' Hl' Hperm.
  - now apply Permutation_nil in Hperm.
  - destruct Hl' as [|y l' Hsorted' Hall'].
    + symmetry in Hperm. now apply Permutation_nil in Hperm.
    + assert (Hxy : x = y).
      { assert (Hx : In x (y :: l'))
          by (eapply Permutation_in; [exact Hperm|now left]).
        assert (Hy : In y (x :: l))
          by (eapply Permutation_in; [symmetry; exact Hperm|now left]).
        destruct Hx as [Hx|Hx]; [congruence|].
        destruct Hy as [Hy|Hy]; [congruence|].
        rewrite Forall_forall in Hall, Hall'.
        apply jsstring_leb_antisym; [apply Hall|apply Hall']; assumption. }
      subst y. f_equal. apply IH; [exact Hsorted'|].
      eapply Permutation_cons_inv; exact Hperm.
Qed.

Lemma valid_timezone_strings_spec (items : list value) (tz : jsstring) :
  In tz (valid_timezone_strings items)
  <-> In (VString tz) items /\ tz <> [] /\ includes tz (js "/") = true.
Proof.
  induction items as [|v items IH]; simpl; [tauto|].
  destruct v as [| |b|n|s|];
    try (rewrite IH; split;
         [intros (H & H'); split; [now right|exact H']
         |intros ([H|H] & H'); [discriminate|tauto]]).
  destruct ((0 <? List.length s)%nat && includes s (js "/")) eqn:Hs.
  - apply andb_true_iff in Hs as [Hlen Hinc]. apply Nat.ltb_lt in Hlen.
    simpl. rewrite IH. split.
    + intros [<-|(H & H')].
      * split; [now left|]. split; [|exact Hinc].
        intros ->. simpl in Hlen. lia.
      * split; [now right|exact H'].
    + intros ([H|H] & H'); [left; congruence|right; tauto].
  - rewrite IH. split.
    + intros (H & H'). split; [now right|exact H'].
    + intros ([H|H] & Hne & Hinc); [|tauto].
      injection H as ->. exfalso.
      apply andb_false_iff in Hs as [Hs|Hs]; [|congruence].
      apply Nat.ltb_ge in Hs. destruct tz; [congruence|simpl in Hs; lia].
Qed.

(** ** The list of all time zones and its cache *)

Lemma use_fallback_run (clock : nat -> Z) (warning : console_entry)
    (w : World) :
  use_fallback clock warning w
  = (FALLBACK_TIMEZONES,
     {| timezoneCache :=
          {| TimezoneCache.allTimezones := Some FALLBACK_TIMEZONES;
             TimezoneCache.timezoneGroups :=
               TimezoneCache.timezoneGroups (timezoneCache w);
             TimezoneCache.lastUpdated := clock (clock_reads w) |};
        clock_reads := S (clock_reads w);
        console := console w ++ [warning] |}).
Proof. reflexivity. Qed.

Lemma getAllTimezones_fresh_run (clock : nat -> Z)
    (intl : supportedValuesOf_env) (w : World) :
  exists warnings,
    getAllTimezones_fresh clock intl w
    = (host_timezones intl,
       {| timezoneCache :=
            {| TimezoneCache.allTimezones := Some (host_timezones intl);
               TimezoneCache.timezoneGroups :=
                 TimezoneCache.timezoneGroups (timezoneCache w);
               TimezoneCache.lastUpdated := clock (clock_reads w) |};
          clock_reads := S (clock_reads w);
          console := console w ++ warnings |})
    /\ (if host_list_usable intl then warnings = []
        else exists message argument,
               warnings = [Console level_warn message argument]).
Proof.
  destruct intl as [|t|[|[|v items]]];
    try (eexists; split; [apply use_fallback_run|]; simpl; eauto).
  unfold getAllTimezones_fresh, host_timezones, host_list_usable.
  destruct (valid_timezone_strings (v :: items)) as [|tz valid].
  - eexists; split; [apply use_fallback_run|]; simpl; eauto.
  - exists []. split; [|reflexivity].
    unfold sbind, set_allTimezones, touch_lastUpdated, Date_now, get_cache,
      set_cache, ret, sbind. simpl. now rewrite app_nil_r.
Qed.

Lemma getAllTimezones_not_cached (clock : nat -> Z)
    (intl : supportedValuesOf_env) (w : World) :
  list_not_cached clock w ->
  exists w',
    getAllTimezones_fresh clock intl w' = getAllTimezones clock intl w
    /\ timezoneCache w' = timezoneCache w
    /\ console w' = console w
    /\ (clock_reads w' = clock_reads w
        \/ clock_reads w' = S (clock_reads w)).
Proof.
  unfold list_not_cached, getAllTimezones, sbind, get_cache. simpl.
  destruct (TimezoneCache.allTimezones (timezoneCache w)) as [cached|].
  - intros Hexpired. unfold isCacheValid, sbind, Date_now, get_cache, ret.
    simpl. destruct (Z.ltb_spec
                       (clock (clock_reads w)
                        - TimezoneCache.lastUpdated (timezoneCache w))
                       CACHE_TTL) as [H|H]; [lia|].
    eexists. split; [reflexivity|]. simpl. auto.
  - intros _. exists w. auto.
Qed.

Lemma host_timezones_nonempty (intl : supportedValuesOf_env) :
  host_timezones intl <> [].
Proof.
  destruct intl as [|t|[|items]]; try discriminate.
  unfold host_timezones.
  destruct (valid_timezone_strings items) as [|tz valid] eqn:Hvalid;
    [discriminate|].
  intros Hnil.
  pose proof (Array_sort_Permutation (tz :: valid)) as Hperm.
  rewrite Hnil in Hperm. symmetry in Hperm.
  now apply Permutation_nil in Hperm.
Qed.

Lemma getAllTimezones_held (clock : nat -> Z)
    (intl : supportedValuesOf_env) (w : World) :
  TimezoneCache.allTimezones
    (timezoneCache (snd (getAllTimezones clock intl w)))
  = Some (fst (getAllTimezones clock intl w)).
Proof.
  unfold getAllTimezones, sbind, get_cache. simpl.
  assert (Hfresh : forall w',
             TimezoneCache.allTimezones
               (timezoneCache (snd (getAllTimezones_fresh clock intl w')))
             = Some (fst (getAllTimezones_fresh clock intl w'))).
  { intros w'. destruct (getAllTimezones_fresh_run clock intl w')
      as (warnings & -> & _). reflexivity. }
  destruct (TimezoneCache.allTimezones (timezoneCache w)) as [cached|] eqn:Hc;
    [|apply Hfresh].
  unfold isCacheValid, sbind, Date_now, get_cache, ret. simpl.
  destruct (_ <? _); [|apply Hfresh].
  exact Hc.
Qed.

(** X17.  [getAllTimezones] never returns an empty list, and the list it
    returns is the list the cache holds afterwards, provided the cache did
    not hold an empty list before: the module itself never puts one
    there. *)
Theorem getAllTimezones_nonempty (clock : nat -> Z)
    (intl : supportedValuesOf_env) (w : World) :
  TimezoneCache.allTimezones (timezoneCache w) <> Some [] ->
  fst (getAllTimezones clock intl w) <> []
  /\ TimezoneCache.allTimezones
       (timezoneCache (snd (getAllTimezones clock intl w)))
     = Some (fst (getAllTimezones clock intl w)).
Proof.
  intros Hcache. split; [|apply getAllTimezones_held].
  assert (Hfresh : forall w',
             fst (getAllTimezones_fresh clock intl w') <> []).
  { intros w'. destruct (getAllTimezones_fresh_run clock intl w')
      as (warnings & -> & _). apply host_timezones_nonempty. }
  unfold getAllTimezones, sbind, get_cache. simpl.
  destruct (TimezoneCache.allTimezones (timezoneCache w)) as [cached|] eqn:Hc;
    [|apply Hfresh].
  unfold isCacheValid, sbind, Date_now, get_cache, ret. simpl.
  destruct (_ <? _); [|apply Hfresh].
  simpl. congruence.
Qed.

Lemma getAllTimezones_nonempty_witness :
  fst (getAllTimezones (fun _ => 0) supportedValuesOf_missing initial_world)
  <> [].
Proof.
  apply (getAllTimezones_nonempty (fun _ => 0) supportedValuesOf_missing
           initial_world).
  discriminate.
Defined.

(** X18.  When the cache does not answer and the host returns an array
    with at least one non-empty string that contains a slash,
    [getAllTimezones] returns exactly those strings of the array, each as
    often as the array has it, in the order of their code units; it logs
    nothing and caches the list with the time of the clock. *)
Theorem getAllTimezones_sorted (clock : nat -> Z) (items : list value)
    (w : World) :
  list_not_cached clock w ->
  valid_timezone_strings items <> [] ->
  let intl := supportedValuesOf_returns (AnArray items) in
  let timezones := fst (getAllTimezones clock intl w) in
  let w' := snd (getAllTimezones clock intl w) in
  StronglySorted code_unit_le timezones
  /\ Permutation (valid_timezone_strings items) timezones
  /\ (forall tz,
         In tz timezones
         <-> In (VString tz) items /\ tz <> []
             /\ includes tz (js "/") = true)
  /\ console w' = console w
  /\ TimezoneCache.allTimezones (timezoneCache w') = Some timezones
  /\ exists k,
       TimezoneCache.lastUpdated (timezoneCache w') = clock k
       /\ clock_reads w' = S k.
Proof.
  intros Hnot Hvalid. cbv zeta.
  assert (Hlist : host_timezones (supportedValuesOf_returns (AnArray items))
                  = Array_sort (valid_timezone_strings items)).
  { unfold host_timezones.
    destruct (valid_timezone_strings items); [congruence|reflexivity]. }
  assert (Husable : host_list_usable
                      (supportedValuesOf_returns (AnArray items)) = true).
  { unfold host_list_usable.
    destruct (valid_timezone_strings items); [congruence|reflexivity]. }
  set (intl := supportedValuesOf_returns (AnArray items)) in *.
  clearbody intl.
  destruct (getAllTimezones_not_cached clock intl w Hnot)
    as (w0 & <- & Hcache & Hconsole & Hreads).
  destruct (getAllTimezones_fresh_run clock intl w0)
    as (warnings & -> & Hwarn). simpl fst. simpl snd.
  rewrite Husable in Hwarn. subst warnings. rewrite Hlist. simpl.
  split; [apply Array_sort_sorted|].
  split; [apply Array_sort_Permutation|].
  split.
  { intros tz. rewrite <- valid_timezone_strings_spec.
    split; apply Permutation_in;
      [symmetry|]; apply Array_sort_Permutation. }
  split; [now rewrite app_nil_r|].
  split; [reflexivity|].
  exists (clock_reads w0). auto.
Qed.

Lemma getAllTimezones_sorted_witness :
  fst (getAllTimezones (fun _ => 0)
         (supportedValuesOf_returns
            (AnArray [VString (js "Europe/Paris"); VNull;
                      VString (js "UTC"); VString (js "Asia/Tokyo")]))
         initial_world)
  = [js "Asia/Tokyo"; js "Europe/Paris"].
Proof.
  pose proof (getAllTimezones_sorted (fun _ => 0)
                [VString (js "Europe/Paris"); VNull;
                 VString (js "UTC"); VString (js "Asia/Tokyo")]
                initial_world I) as H.
  assert (Hvalid : valid_timezone_strings
                     [VString (js "Europe/Paris"); VNull;
                      VString (js "UTC"); VString (js "Asia/Tokyo")] <> [])
    by (vm_compute; discriminate).
  destruct (H Hvalid) as (Hsorted & Hperm & _).
  apply sorted_unique.
  - exact Hsorted.
  - vm_compute. repeat constructor.
  - rewrite <- Hperm. vm_compute. apply perm_swap.
Defined.

(** X19.  When the cache does not answer and the host has no
    [Intl.supportedValuesOf], or the call throws, or its result is not an
    array or has no non-empty string with a slash in it, [getAllTimezones]
    returns the thirteen fallback zones, logs one warning and nothing else,
    and caches the fallback list as it caches a list of the host. *)
Theorem getAllTimezones_fallback (clock : nat -> Z)
    (intl : supportedValuesOf_env) (w : World) :
  list_not_cached clock w ->
  host_list_usable intl = false ->
  let w' := snd (getAllTimezones clock intl w) in
  fst (getAllTimezones clock intl w) = FALLBACK_TIMEZONES
  /\ (exists message argument,
         console w' = console w ++ [Console level_warn message argument])
  /\ TimezoneCache.allTimezones (timezoneCache w') = Some FALLBACK_TIMEZONES
  /\ TimezoneCache.timezoneGroups (timezoneCache w')
     = TimezoneCache.timezoneGroups (timezoneCache w)
  /\ exists k,
       TimezoneCache.lastUpdated (timezoneCache w') = clock k
       /\ clock_reads w' = S k.
Proof.
  intros Hnot Husable w'. subst w'.
  destruct (getAllTimezones_not_cached clock intl w Hnot)
    as (w0 & <- & Hcache & Hconsole & Hreads).
  destruct (getAllTimezones_fresh_run clock intl w0)
    as (warnings & -> & Hwarn). simpl fst. simpl snd.
  rewrite Husable in Hwarn. destruct Hwarn as (message & argument & ->).
  assert (Hlist : host_timezones intl = FALLBACK_TIMEZONES).
  { destruct intl as [|t|[|items]]; try reflexivity.
    unfold host_list_usable in Husable. unfold host_timezones.
    destruct (valid_timezone_strings items); [reflexivity|discriminate]. }
  rewrite Hlist. simpl.
  split; [reflexivity|].
  split; [exists message, argument; now rewrite Hconsole|].
  split; [reflexivity|].
  split; [now rewrite Hcache|].
  exists (clock_reads w0). auto.
Qed.

Lemma getAllTimezones_fallback_witness :
  fst (getAllTimezones (fun _ => 0)
         (supportedValuesOf_returns (AnArray [VString (js "UTC")]))
         initial_world)
  = FALLBACK_TIMEZONES.
Proof.
  apply (getAllTimezones_fallback (fun _ => 0)
           (supportedValuesOf_returns (AnArray [VString (js "UTC")]))
           initial_world I).
  reflexivity.
Defined.

(** X20.  A second call of [getAllTimezones] less than five minutes of the
    clock after the first returns the list of the first call and changes
    nothing, whatever the host has become in between: it does not ask the
    host again. *)
Theorem getAllTimezones_cache_hit (clock : nat -> Z)
    (intl intl' : supportedValuesOf_env) (w : World) :
  let timezones := fst (getAllTimezones clock intl w) in
  let w' := snd (getAllTimezones clock intl w) in
  clock (clock_reads w') - TimezoneCache.lastUpdated (timezoneCache w')
  < CACHE_TTL ->
  getAllTimezones clock intl' w' = (timezones, after_reading w').
Proof.
  intros timezones w' Hfresh.
  pose proof (getAllTimezones_held clock intl w) as Hheld.
  fold w' in Hheld. fold timezones in Hheld.
  unfold getAllTimezones at 1. unfold sbind, get_cache. simpl.
  rewrite Hheld.
  unfold isCacheValid, sbind, Date_now, get_cache, ret. simpl.
  destruct (Z.ltb_spec
              (clock (clock_reads w')
               - TimezoneCache.lastUpdated (timezoneCache w'))
              CACHE_TTL) as [H|H]; [reflexivity|lia].
Qed.

Lemma getAllTimezones_cache_hit_witness :
  getAllTimezones (fun _ => 0) (supportedValuesOf_throws (Throw false []))
    (snd (getAllTimezones (fun _ => 0) supportedValuesOf_missing
            initial_world))
  = (FALLBACK_TIMEZONES,
     after_reading
       (snd (getAllTimezones (fun _ => 0) supportedValuesOf_missing
               initial_world))).
Proof.
  apply (getAllTimezones_cache_hit (fun _ => 0) supportedValuesOf_missing
           (supportedValuesOf_throws (Throw false [])) initial_world).
  vm_compute. reflexivity.
Defined.

(** ** The groups and their cache *)

Lemma has_In (values : list jsstring) (tz : jsstring) :
  has values tz = true <-> In tz values.
Proof.
  unfold has. rewrite existsb_exists. split.
  - intros (x & Hin & Heq). apply jsstring_eqb_eq in Heq. now subst.
  - intros Hin. exists tz. split; [exact Hin|now apply jsstring_eqb_eq].
Qed.

Lemma getTimezoneGroups_fresh_run (clock : nat -> Z)
    (intl : supportedValuesOf_env) (w : World) :
  getTimezoneGroups_fresh clock intl w
  = (timezone_groups_of (fst (getAllTimezones clock intl w)),
     let w1 := snd (getAllTimezones clock intl w) in
     {| timezoneCache :=
          {| TimezoneCache.allTimezones :=
               TimezoneCache.allTimezones (timezoneCache w1);
             TimezoneCache.timezoneGroups :=
               Some (timezone_groups_of (fst (getAllTimezones clock intl w)));
             TimezoneCache.lastUpdated := clock (clock_reads w1) |};
        clock_reads := S (clock_reads w1);
        console := console w1 |}).
Proof.
  unfold getTimezoneGroups_fresh, sbind.
  destruct (getAllTimezones clock intl w) as [allTimezones w1].
  reflexivity.
Qed.

Lemma getTimezoneGroups_not_cached (clock : nat -> Z)
    (intl : supportedValuesOf_env) (w : World) :
  groups_not_cached clock w ->
  exists w',
    getTimezoneGroups_fresh clock intl w' = getTimezoneGroups clock intl w
    /\ timezoneCache w' = timezoneCache w
    /\ console w' = console w.
Proof.
  unfold groups_not_cached, getTimezoneGroups, sbind, get_cache. simpl.
  destruct (TimezoneCache.timezoneGroups (timezoneCache w)) as [cached|].
  - intros Hexpired. unfold isCacheValid, sbind, Date_now, get_cache, ret.
    simpl. destruct (Z.ltb_spec
                       (clock (clock_reads w)
                        - TimezoneCache.lastUpdated (timezoneCache w))
                       CACHE_TTL) as [H|H]; [lia|].
    eexists. split; [reflexivity|]. simpl. auto.
  - intros _. exists w. auto.
Qed.

Lemma getTimezoneGroups_held (clock : nat -> Z)
    (intl : supportedValuesOf_env) (w : World) :
  TimezoneCache.timezoneGroups
    (timezoneCache (snd (getTimezoneGroups clock intl w)))
  = Some (fst (getTimezoneGroups clock intl w)).
Proof.
  unfold getTimezoneGroups, sbind, get_cache. simpl.
  assert (Hfresh : forall w',
             TimezoneCache.timezoneGroups
               (timezoneCache (snd (getTimezoneGroups_fresh clock intl w')))
             = Some (fst (getTimezoneGroups_fresh clock intl w'))).
  { intros w'. rewrite getTimezoneGroups_fresh_run. reflexivity. }
  destruct (TimezoneCache.timezoneGroups (timezoneCache w)) as [cached|]
    eqn:Hc; [|apply Hfresh].
  unfold isCacheValid, sbind, Date_now, get_cache, ret. simpl.
  destruct (_ <? _); [|apply Hfresh].
  exact Hc.
Qed.

Lemma timezone_groups_of_values (allTimezones : list jsstring) :
  List.map TimezoneOption.value (all_options (timezone_groups_of allTimezones))
  = commonTimezoneValues
    ++ filter (fun tz => negb (has commonTimezoneValues tz)) allTimezones.
Proof.
  unfold all_options, timezone_groups_of.
  rewrite flat_map_app, map_app. f_equal.
  cbn [flat_map TimezoneGroup.timezones]. rewrite app_nil_r, map_map.
  cbn [TimezoneOption.value]. apply map_id.
Qed.

(** X21.  When the cache does not answer, [getTimezoneGroups] returns the
    four common groups followed by one group, All Other Timezones.  The
    values of that group are the time zones of the list of all time zones,
    as the cache holds it afterwards, that are not values of a common group,
    in the order of that list; the name of each is [formatTimezoneName] of
    its value.  The result is what the cache holds afterwards. *)
Theorem getTimezoneGroups_structure (clock : nat -> Z)
    (intl : supportedValuesOf_env) (w : World) :
  groups_not_cached clock w ->
  let w' := snd (getTimezoneGroups clock intl w) in
  exists others allTimezones,
    fst (getTimezoneGroups clock intl w)
    = commonTimezones
      ++ [ {| TimezoneGroup.label := js "All Other Timezones";
              TimezoneGroup.timezones := others |} ]
    /\ TimezoneCache.allTimezones (timezoneCache w') = Some allTimezones
    /\ List.map TimezoneOption.value others
       = filter (fun tz => negb (has commonTimezoneValues tz)) allTimezones
    /\ Forall (fun timezone =>
                 TimezoneOption.name timezone
                 = formatTimezoneName (TimezoneOption.value timezone)
                 /\ ~ In (TimezoneOption.value timezone) commonTimezoneValues)
              others
    /\ TimezoneCache.timezoneGroups (timezoneCache w')
       = Some (fst (getTimezoneGroups clock intl w)).
Proof.
  intros Hnot w'. subst w'.
  destruct (getTimezoneGroups_not_cached clock intl w Hnot)
    as (w0 & <- & _ & _).
  rewrite getTimezoneGroups_fresh_run. cbv zeta. simpl fst. simpl snd.
  cbn [timezoneCache TimezoneCache.allTimezones TimezoneCache.timezoneGroups].
  rewrite getAllTimezones_held.
  eexists _, _. split; [reflexivity|]. split; [reflexivity|].
  split; [|split; [|reflexivity]].
  - rewrite map_map. cbn [TimezoneOption.value]. apply map_id.
  - apply Forall_forall. intros timezone Hin.
    apply in_map_iff in Hin as (tz & <- & Hin).
    cbn [TimezoneOption.name TimezoneOption.value]. split; [reflexivity|].
    apply filter_In in Hin as [_ Hhas]. rewrite <- has_In.
    destruct (has commonTimezoneValues tz); [discriminate|congruence].
Qed.

Lemma getTimezoneGroups_structure_witness :
  exists others allTimezones,
    fst (getTimezoneGroups (fun _ => 0) supportedValuesOf_missing
           initial_world)
    = commonTimezones
      ++ [ {| TimezoneGroup.label := js "All Other Timezones";
              TimezoneGroup.timezones := others |} ]
    /\ TimezoneCache.allTimezones
         (timezoneCache
            (snd (getTimezoneGroups (fun _ => 0) supportedValuesOf_missing
                    initial_world)))
       = Some allTimezones
    /\ List.map TimezoneOption.value others
       = filter (fun tz => negb (has commonTimezoneValues tz)) allTimezones
    /\ Forall (fun timezone =>
                 TimezoneOption.name timezone
                 = formatTimezoneName (TimezoneOption.value timezone)
                 /\ ~ In (TimezoneOption.value timezone) commonTimezoneValues)
              others
    /\ TimezoneCache.timezoneGroups
         (timezoneCache
            (snd (getTimezoneGroups (fun _ => 0) supportedValuesOf_missing
                    initial_world)))
       = Some (fst (getTimezoneGroups (fun _ => 0) supportedValuesOf_missing
                      initial_world)).
Proof.
  apply (getTimezoneGroups_structure (fun _ => 0) supportedValuesOf_missing
           initial_world).
  exact I.
Defined.

Lemma getAllTimezones_empty_cache (clock : nat -> Z)
    (intl : supportedValuesOf_env) (w : World) :
  timezoneCache w = TimezoneCache.empty ->
  fst (getAllTimezones clock intl w) = host_timezones intl.
Proof.
  intros Hempty. unfold getAllTimezones, sbind, get_cache. simpl.
  rewrite Hempty. simpl.
  destruct (getAllTimezones_fresh_run clock intl w) as (warnings & -> & _).
  reflexivity.
Qed.

Lemma getTimezoneGroups_empty_cache (clock : nat -> Z)
    (intl : supportedValuesOf_env) (w : World) :
  timezoneCache w = TimezoneCache.empty ->
  fst (getTimezoneGroups clock intl w)
  = timezone_groups_of (host_timezones intl).
Proof.
  intros Hempty. unfold getTimezoneGroups, sbind, get_cache. simpl.
  rewrite Hempty. simpl. rewrite getTimezoneGroups_fresh_run. simpl fst.
  now rewrite getAllTimezones_empty_cache.
Qed.

Lemma valid_timezone_strings_NoDup (items : list value) :
  NoDup items -> NoDup (valid_timezone_strings items).
Proof.
  induction 1 as [|v items Hnotin Hnodup IH]; simpl; [constructor|].
  destruct v as [| |b|n|s|]; try exact IH.
  destruct (_ && _); [|exact IH].
  constructor; [|exact IH].
  intros Hin. apply valid_timezone_strings_spec in Hin. tauto.
Qed.

Lemma commonTimezoneValues_NoDup : NoDup commonTimezoneValues.
Proof.
  vm_compute.
  repeat (constructor; [simpl; intuition discriminate|]). constructor.
Qed.

Lemma FALLBACK_TIMEZONES_NoDup : NoDup FALLBACK_TIMEZONES.
Proof.
  vm_compute.
  repeat (constructor; [simpl; intuition discriminate|]). constructor.
Qed.

(** X22.  On an empty cache (at the start, or after [clearTimezoneCache]),
    when the array of the host has no element twice, no time zone value
    appears twice in the groups of [getTimezoneGroups], common groups and
    other time zones together, and no two groups have the same label. *)
Theorem getTimezoneGroups_unique (clock : nat -> Z)
    (intl : supportedValuesOf_env) (w : World) :
  timezoneCache w = TimezoneCache.empty ->
  (forall items,
      intl = supportedValuesOf_returns (AnArray items) -> NoDup items) ->
  NoDup (List.map TimezoneOption.value
           (all_options (fst (getTimezoneGroups clock intl w))))
  /\ NoDup (List.map TimezoneGroup.label
              (fst (getTimezoneGroups clock intl w))).
Proof.
  intros Hempty Hhost. rewrite getTimezoneGroups_empty_cache by exact Hempty.
  split.
  - rewrite timezone_groups_of_values.
    apply NoDup_app; [apply commonTimezoneValues_NoDup| |].
    + apply NoDup_filter.
      destruct intl as [|t|[|items]];
        try apply FALLBACK_TIMEZONES_NoDup.
      unfold host_timezones.
      pose proof (valid_timezone_strings_NoDup items (Hhost items eq_refl))
        as Hvalid.
      destruct (valid_timezone_strings items) as [|tz valid] eqn:Heq;
        [apply FALLBACK_TIMEZONES_NoDup|].
      eapply Permutation_NoDup; [apply Array_sort_Permutation|exact Hvalid].
    + intros tz Hcommon Hother. apply filter_In in Hother as [_ Hhas].
      apply has_In in Hcommon. rewrite Hcommon in Hhas. discriminate.
  - unfold timezone_groups_of. rewrite map_app. vm_compute.
    repeat (constructor; [simpl; intuition discriminate|]). constructor.
Qed.

Lemma getTimezoneGroups_unique_witness :
  NoDup (List.map TimezoneOption.value
           (all_options
              (fst (getTimezoneGroups (fun _ => 0)
                      (supportedValuesOf_returns
                         (AnArray [VString (js "Europe/Paris");
                                   VString (js "Europe/London")]))
                      (snd (clearTimezoneCache initial_world)))))).
Proof.
  apply (getTimezoneGroups_unique (fun _ => 0)
           (supportedValuesOf_returns
              (AnArray [VString (js "Europe/Paris");
                        VString (js "Europe/London")]))
           (snd (clearTimezoneCache initial_world))).
  - reflexivity.
  - intros items [= <-].
    repeat (constructor; [simpl; intuition discriminate|]). constructor.
Defined.

Lemma StronglySorted_filter (f : jsstring -> bool) (l : list jsstring) :
  StronglySorted code_unit_le l -> StronglySorted code_unit_le (filter f l).
Proof.
  induction 1 as [|x l Hsorted IH Hall]; simpl; [constructor|].
  destruct (f x); [|exact IH].
  constructor; [exact IH|].
  rewrite Forall_forall in *. intros y Hy. apply filter_In in Hy as [Hy _].
  now apply Hall.
Qed.

(** X23.  On an empty cache, when the host returns an array with at least
    one non-empty string that contains a slash, the group All Other
    Timezones has exactly the non-empty strings of the array that contain
    a slash and are not values of a common group, in the order of their
    code units. *)
Theorem getTimezoneGroups_sorted (clock : nat -> Z) (items : list value)
    (w : World) :
  timezoneCache w = TimezoneCache.empty ->
  valid_timezone_strings items <> [] ->
  exists others,
    fst (getTimezoneGroups clock
           (supportedValuesOf_returns (AnArray items)) w)
    = commonTimezones
      ++ [ {| TimezoneGroup.label := js "All Other Timezones";
              TimezoneGroup.timezones := others |} ]
    /\ StronglySorted code_unit_le (List.map TimezoneOption.value others)
    /\ forall tz,
         In tz (List.map TimezoneOption.value others)
         <-> In (VString tz) items /\ tz <> []
             /\ includes tz (js "/") = true
             /\ ~ In tz commonTimezoneValues.
Proof.
  intros Hempty Hvalid. rewrite getTimezoneGroups_empty_cache by exact Hempty.
  assert (Hlist : host_timezones (supportedValuesOf_returns (AnArray items))
                  = Array_sort (valid_timezone_strings items)).
  { unfold host_timezones.
    destruct (valid_timezone_strings items); [congruence|reflexivity]. }
  rewrite Hlist. unfold timezone_groups_of.
  eexists. split; [reflexivity|].
  rewrite map_map. cbn [TimezoneOption.value]. rewrite map_id.
  split; [apply StronglySorted_filter, Array_sort_sorted|].
  intros tz. rewrite filter_In, negb_true_iff.
  assert (Hin : In tz (Array_sort (valid_timezone_strings items))
                <-> In tz (valid_timezone_strings items)).
  { split; apply Permutation_in;
      [symmetry|]; apply Array_sort_Permutation. }
  rewrite Hin, valid_timezone_strings_spec, <- has_In.
  destruct (has commonTimezoneValues tz); intuition congruence.
Qed.

Lemma getTimezoneGroups_sorted_witness :
  exists others,
    fst (getTimezoneGroups (fun _ => 0)
           (supportedValuesOf_returns
              (AnArray [VString (js "Europe/Paris");
                        VString (js "Asia/Tokyo")]))
           initial_world)
    = commonTimezones
      ++ [ {| TimezoneGroup.label := js "All Other Timezones";
              TimezoneGroup.timezones := others |} ]
    /\ StronglySorted code_unit_le (List.map TimezoneOption.value others).
Proof.
  destruct (getTimezoneGroups_sorted (fun _ => 0)
              [VString (js "Europe/Paris"); VString (js "Asia/Tokyo")]
              initial_world eq_refl) as (others & Hgroups & Hsorted & _).
  - vm_compute. discriminate.
  - exists others. split; [exact Hgroups|exact Hsorted].
Defined.

(** X24.  On an empty cache, when the host gives no usable list, the
    groups of [getTimezoneGroups] list UTC and sixteen other values, and
    [findTimezoneByValue] finds every one of them in those groups except
    UTC: the name UTC has no slash, so it is not looked up. *)
Theorem getTimezoneGroups_fallback_UTC (clock : nat -> Z)
    (intl : supportedValuesOf_env) (w : World) :
  timezoneCache w = TimezoneCache.empty ->
  host_list_usable intl = false ->
  let groups := fst (getTimezoneGroups clock intl w) in
  In (js "UTC") (List.map TimezoneOption.value (all_options groups))
  /\ forall value,
       In value (List.map TimezoneOption.value (all_options groups)) ->
       (findTimezoneByValue groups value = None <-> value = js "UTC").
Proof.
  intros Hempty Husable groups. subst groups.
  rewrite getTimezoneGroups_empty_cache by exact Hempty.
  assert (Hlist : host_timezones intl = FALLBACK_TIMEZONES).
  { destruct intl as [|t|[|items]]; try reflexivity.
    unfold host_list_usable in Husable. unfold host_timezones.
    destruct (valid_timezone_strings items); [reflexivity|discriminate]. }
  rewrite Hlist. split.
  - vm_compute. repeat (first [left; reflexivity|right]).
  - intros value Hin.
    set (groups := timezone_groups_of FALLBACK_TIMEZONES) in *.
    vm_compute in Hin.
    repeat (destruct Hin as [<-|Hin]; [vm_compute; split; intros; congruence|]).
    contradiction.
Qed.

Lemma getTimezoneGroups_fallback_UTC_witness :
  In (js "UTC")
     (List.map TimezoneOption.value
        (all_options
           (fst (getTimezoneGroups (fun _ => 0) supportedValuesOf_missing
                   initial_world)))).
Proof.
  apply (getTimezoneGroups_fallback_UTC (fun _ => 0)
           supportedValuesOf_missing initial_world); reflexivity.
Defined.

(** X25.  A second call of [getTimezoneGroups] less than five minutes of
    the clock after the first returns the groups of the first call and
    changes nothing, whatever the host has become in between. *)
Theorem getTimezoneGroups_cache_hit (clock : nat -> Z)
    (intl intl' : supportedValuesOf_env) (w : World) :
  let groups := fst (getTimezoneGroups clock intl w) in
  let w' := snd (getTimezoneGroups clock intl w) in
  clock (clock_reads w') - TimezoneCache.lastUpdated (timezoneCache w')
  < CACHE_TTL ->
  getTimezoneGroups clock intl' w' = (groups, after_reading w').
Proof.
  intros groups w' Hfresh.
  pose proof (getTimezoneGroups_held clock intl w) as Hheld.
  fold w' in Hheld. fold groups in Hheld.
  unfold getTimezoneGroups at 1. unfold sbind, get_cache. simpl.
  rewrite Hheld.
  unfold isCacheValid, sbind, Date_now, get_cache, ret. simpl.
  destruct (Z.ltb_spec
              (clock (clock_reads w')
               - TimezoneCache.lastUpdated (timezoneCache w'))
              CACHE_TTL) as [H|H]; [reflexivity|lia].
Qed.

Lemma getTimezoneGroups_cache_hit_witness :
  getTimezoneGroups (fun _ => 0) (supportedValuesOf_throws (Throw false []))
    (snd (getTimezoneGroups (fun _ => 0) supportedValuesOf_missing
            initial_world))
  = (fst (getTimezoneGroups (fun _ => 0) supportedValuesOf_missing
            initial_world),
     after_reading
       (snd (getTimezoneGroups (fun _ => 0) supportedValuesOf_missing
               initial_world))).
Proof.
  apply (getTimezoneGroups_cache_hit (fun _ => 0) supportedValuesOf_missing
           (supportedValuesOf_throws (Throw false [])) initial_world).
  vm_compute. reflexivity.
Defined.

Lemma getAllTimezones_refresh (clock : nat -> Z)
    (intl : supportedValuesOf_env) (w : World) :
  list_not_cached clock w ->
  exists k warnings,
    getAllTimezones clock intl w
    = (host_timezones intl,
       {| timezoneCache :=
            {| TimezoneCache.allTimezones := Some (host_timezones intl);
               TimezoneCache.timezoneGroups :=
                 TimezoneCache.timezoneGroups (timezoneCache w);
               TimezoneCache.lastUpdated := clock k |};
          clock_reads := S k;
          console := console w ++ warnings |}).
Proof.
  intros Hnot.
  destruct (getAllTimezones_not_cached clock intl w Hnot)
    as (w0 & <- & Hcache & Hconsole & _).
  destruct (getAllTimezones_fresh_run clock intl w0)
    as (warnings & -> & _).
  exists (clock_reads w0), warnings. now rewrite Hcache, Hconsole.
Qed.

(** X26.  The list and the groups share one time stamp.  When the groups
    of an earlier call have expired and [getAllTimezones] is called, it
    asks the host again and stamps the cache; a call of [getTimezoneGroups]
    less than five minutes of the clock after that returns the groups of
    the earlier call, not groups of the new list. *)
Theorem getTimezoneGroups_stale (clock : nat -> Z)
    (intl intl' intl'' : supportedValuesOf_env) (w : World) :
  let groups := fst (getTimezoneGroups clock intl w) in
  let w1 := snd (getTimezoneGroups clock intl w) in
  let w2 := snd (getAllTimezones clock intl' w1) in
  CACHE_TTL
  <= clock (clock_reads w1) - TimezoneCache.lastUpdated (timezoneCache w1) ->
  clock (clock_reads w2) - TimezoneCache.lastUpdated (timezoneCache w2)
  < CACHE_TTL ->
  fst (getAllTimezones clock intl' w1) = host_timezones intl'
  /\ getTimezoneGroups clock intl'' w2 = (groups, after_reading w2).
Proof.
  intros groups w1 w2 Hexpired Hfresh.
  pose proof (getTimezoneGroups_held clock intl w) as Hheld.
  fold w1 in Hheld. fold groups in Hheld.
  assert (Hnot : list_not_cached clock w1).
  { unfold list_not_cached.
    destruct (TimezoneCache.allTimezones (timezoneCache w1));
      [exact Hexpired|exact I]. }
  destruct (getAllTimezones_refresh clock intl' w1 Hnot)
    as (k & warnings & Hrun).
  assert (Hgroups : TimezoneCache.timezoneGroups (timezoneCache w2)
                    = Some groups).
  { unfold w2. rewrite Hrun. simpl. exact Hheld. }
  split; [now rewrite Hrun|].
  unfold getTimezoneGroups, sbind, get_cache. simpl. rewrite Hgroups.
  unfold isCacheValid, sbind, Date_now, get_cache, ret. simpl.
  destruct (Z.ltb_spec
              (clock (clock_reads w2)
               - TimezoneCache.lastUpdated (timezoneCache w2))
              CACHE_TTL) as [H|H]; [reflexivity|lia].
Qed.

Lemma getTimezoneGroups_stale_witness :
  fst (getAllTimezones sample_clock
         (supportedValuesOf_returns (AnArray [VString (js "Asia/Tokyo")]))
         (snd (getTimezoneGroups sample_clock supportedValuesOf_missing
                 initial_world)))
  = [js "Asia/Tokyo"]
  /\ fst (getTimezoneGroups sample_clock
            (supportedValuesOf_returns (AnArray [VString (js "Asia/Tokyo")]))
            (snd (getAllTimezones sample_clock
                    (supportedValuesOf_returns
                       (AnArray [VString (js "Asia/Tokyo")]))
                    (snd (getTimezoneGroups sample_clock
                            supportedValuesOf_missing initial_world)))))
     = timezone_groups_of FALLBACK_TIMEZONES.
Proof.
  destruct (getTimezoneGroups_stale sample_clock supportedValuesOf_missing
              (supportedValuesOf_returns (AnArray [VString (js "Asia/Tokyo")]))
              (supportedValuesOf_returns (AnArray [VString (js "Asia/Tokyo")]))
              initial_world) as [Hlist Hgroups].
  - vm_compute. discriminate.
  - vm_compute. reflexivity.
  - split; [exact Hlist|]. rewrite Hgroups. reflexivity.
Defined.

(** X27.  After [clearTimezoneCache], whatever the cache held and whatever
    the clock reads, [getAllTimezones] asks the host again and
    [getTimezoneGroups] builds its groups from the list of the host;
    clearing logs nothing and does not read the clock. *)
Theorem clearTimezoneCache_refresh (clock : nat -> Z)
    (intl : supportedValuesOf_env) (w : World) :
  let cleared := snd (clearTimezoneCache w) in
  fst (getAllTimezones clock intl cleared) = host_timezones intl
  /\ fst (getTimezoneGroups clock intl cleared)
     = timezone_groups_of (host_timezones intl)
  /\ console cleared = console w
  /\ clock_reads cleared = clock_reads w.
Proof.
  intros cleared. split; [|split].
  - now apply getAllTimezones_empty_cache.
  - now apply getTimezoneGroups_empty_cache.
  - split; reflexivity.
Qed.
